(** * ICEmap-R: river-ice classification pipeline (src/py/icemapr.py)

    A shallow embedding of [icemapr], [createPCT] and [main], and of the two
    EASI modelling scripts the pipeline hands to PCI Geomatica.

    What is modelled, and how:
    - the file system the run sees is a finite map from paths to files;
    - the calls into PCI Geomatica made inside the [try] block are data
      ([pci_call]), listed in source order by [pipeline]; an environment
      decides which call raises;
    - the EASI scripts are syntax trees with a per-pixel interpreter;
    - the log is the list of records handed to the logger: every warning and
      error, and the INFO records that report how the run ended.  The INFO
      records that announce the next step are left out.  Which records
      reach the console and the log file is decided by the handler set-up
      of [setupLogger], modelled on its own ([setupLogger], [delivered]);
    - the log file that the set-up opens is a file on that disk:
      [icemapr_call] and [main_call] are the calls as the source has them,
      set-up included, and [icemapr] and [main] are those calls from after
      the set-up on. *)

From Stdlib Require Import ZArith QArith Lia Ascii String.
From stdpp Require Import gmap strings list.

Open Scope string_scope.
Open Scope Z_scope.

(* ================================================================== *)
(** ** Python values and helpers *)

(** [icemapr] returns [False], [True] or the integer [1]. *)
Inductive pyval : Type :=
| PyBool (b : bool)
| PyInt (z : Z).

(** Python truth value, as used by [if not icemapr(...)] in [main]. *)
Definition truthy (v : pyval) : bool :=
  match v with
  | PyBool b => b
  | PyInt z => negb (z =? 0)
  end.

(** [str.lower] on ASCII text. *)
Definition ascii_lower (c : ascii) : ascii :=
  let n := nat_of_ascii c in
  if ((65 <=? n) && (n <=? 90))%nat then ascii_of_nat (n + 32) else c.

Fixpoint lower (s : string) : string :=
  match s with
  | EmptyString => EmptyString
  | String c s' => String (ascii_lower c) (lower s')
  end.

(** [x in [a, b, ...]] on strings. *)
Definition str_in (x : string) (l : list string) : bool :=
  existsb (String.eqb x) l.

(** [str.rfind] for a one-character needle: the last index, or -1. *)
Fixpoint rfind_from (c : ascii) (s : string) (i acc : Z) : Z :=
  match s with
  | EmptyString => acc
  | String a s' => rfind_from c s' (i + 1) (if Ascii.eqb a c then i else acc)
  end.

Definition rfind (c : ascii) (s : string) : Z := rfind_from c s 0 (-1).

(** [p[i:j]] for [0 <= i]. *)
Definition slice (p : string) (i j : Z) : string :=
  String.substring (Z.to_nat i) (Z.to_nat (j - i)) p.

Definition drop_str (i : Z) (p : string) : string :=
  String.substring (Z.to_nat i) (String.length p - Z.to_nat i) p.

Fixpoint all_char (c : ascii) (s : string) : bool :=
  match s with
  | EmptyString => true
  | String a s' => Ascii.eqb a c && all_char c s'
  end.

(** [genericpath._splitext(p, sep, altsep, extsep)]: the extension starts at
    the last dot of the last path component, leading dots not counting. *)
Definition _splitext (p : string) (sep : ascii) (altsep : option ascii)
    (extsep : ascii) : string * string :=
  let sepIndex := rfind sep p in
  let sepIndex :=
    match altsep with
    | Some a => Z.max sepIndex (rfind a p)
    | None => sepIndex
    end in
  let dotIndex := rfind extsep p in
  if sepIndex <? dotIndex then
    if all_char extsep (slice p (sepIndex + 1) dotIndex)
    then (p, "")
    else (slice p 0 dotIndex, drop_str dotIndex p)
  else (p, "").

(** [os.path.splitext] (posixpath). *)
Definition splitext (p : string) : string * string :=
  _splitext p "/"%char None "."%char.

(** [os.path.join] of a directory and a relative file name (posixpath). *)
Definition path_join (a b : string) : string :=
  if String.eqb a "" then b
  else if Ascii.eqb (default "/"%char (String.get (String.length a - 1) a)) "/"%char
       then a ++ b
       else a ++ "/" ++ b.

(* ================================================================== *)
(** ** EASI modelling scripts

    The two [source] strings passed to [model] use a small fragment of EASI:
    channel references [%n], bitmap references [%%n], integer literals,
    [+], comparisons joined by [and], assignments and
    [if .. then .. elseif .. endif] without a final [else]. *)

Module Easi.

Inductive ref : Type :=
| Chan (n : nat)      (* %n  *)
| Bitmap (n : nat).   (* %%n *)

Inductive expr : Type :=
| Var (r : ref)
| Lit (z : Z)
| Add (a b : expr).

Inductive cond : Type :=
| Gt (a b : expr)
| Lt (a b : expr)
| Ge (a b : expr)
| Eq (a b : expr)
| And (p q : cond).

(** [If c s t]: the [elseif] chain continues in [t]; a chain that ends in
    [endif] without [else] ends in [Skip]. *)
Inductive stmt : Type :=
| Skip
| Assign (r : ref) (e : expr)
| Seq (s t : stmt)
| If (c : cond) (s t : stmt).

(** The values of one pixel in every channel and bitmap of the file. *)
Record pixel : Type := { img : nat -> Z; bit : nat -> Z }.

Definition get (p : pixel) (r : ref) : Z :=
  match r with
  | Chan n => img p n
  | Bitmap n => bit p n
  end.

Definition set (p : pixel) (r : ref) (v : Z) : pixel :=
  match r with
  | Chan n => {| img := fun c => if Nat.eqb c n then v else img p c; bit := bit p |}
  | Bitmap n => {| img := img p; bit := fun c => if Nat.eqb c n then v else bit p c |}
  end.

Fixpoint eval (p : pixel) (e : expr) : Z :=
  match e with
  | Var r => get p r
  | Lit z => z
  | Add a b => eval p a + eval p b
  end.

Fixpoint holds (p : pixel) (c : cond) : bool :=
  match c with
  | Gt a b => eval p b <? eval p a
  | Lt a b => eval p a <? eval p b
  | Ge a b => eval p b <=? eval p a
  | Eq a b => eval p a =? eval p b
  | And c1 c2 => holds p c1 && holds p c2
  end.

(** One pixel through the script: a pixel no branch assigns is returned
    as it was. *)
Fixpoint exec (s : stmt) (p : pixel) : pixel :=
  match s with
  | Skip => p
  | Assign r e => set p r (eval p e)
  | Seq s1 s2 => exec s2 (exec s1 p)
  | If c s1 s2 => if holds p c then exec s1 p else exec s2 p
  end.

(** References a script assigns and reads. *)
Fixpoint assigned (s : stmt) : list ref :=
  match s with
  | Skip => []
  | Assign r _ => [r]
  | Seq s1 s2 => assigned s1 ++ assigned s2
  | If _ s1 s2 => assigned s1 ++ assigned s2
  end.

Fixpoint expr_refs (e : expr) : list ref :=
  match e with
  | Var r => [r]
  | Lit _ => []
  | Add a b => expr_refs a ++ expr_refs b
  end.

Fixpoint cond_refs (c : cond) : list ref :=
  match c with
  | Gt a b | Lt a b | Ge a b | Eq a b => expr_refs a ++ expr_refs b
  | And c1 c2 => cond_refs c1 ++ cond_refs c2
  end.

Fixpoint reads (s : stmt) : list ref :=
  match s with
  | Skip => []
  | Assign _ e => expr_refs e
  | Seq s1 s2 => reads s1 ++ reads s2
  | If c s1 s2 => cond_refs c ++ reads s1 ++ reads s2
  end.

End Easi.

(** Python's [l[0]] on the channel lists the scripts are formatted with. *)
Definition idx0 (l : list nat) : nat := hd 0%nat l.

(** The script of lines 211-213: [if (%{0[0]}=0) then %%{1}=0; endif;]. *)
Definition crop_source (chan_sar : list nat) (riverMask : nat) : Easi.stmt :=
  Easi.If (Easi.Eq (Easi.Var (Easi.Chan (idx0 chan_sar))) (Easi.Lit 0))
    (Easi.Assign (Easi.Bitmap riverMask) (Easi.Lit 0))
    Easi.Skip.

(** The script of lines 349-363, formatted with
    [chan_sieve, chan_mosaic3, chan_fuz2, chan_fuzclus3]. *)
Definition fusion_source (chan_sieve chan_mosaic3 chan_fuz2 chan_fuzclus3 : list nat)
    : Easi.stmt :=
  let coarse := Easi.Var (Easi.Chan (idx0 chan_sieve)) in
  let final := Easi.Chan (idx0 chan_mosaic3) in
  let fineA := Easi.Var (Easi.Chan (idx0 chan_fuz2)) in
  let fineB := Easi.Var (Easi.Chan (idx0 chan_fuzclus3)) in
  Easi.If (Easi.And (Easi.Gt coarse (Easi.Lit 1)) (Easi.Lt coarse (Easi.Lit 7)))
    (Easi.Assign final (Easi.Add coarse (Easi.Lit 1)))
  (Easi.If (Easi.Eq coarse (Easi.Lit 1))
    (Easi.If (Easi.And (Easi.Lt fineA (Easi.Lit 9)) (Easi.Gt fineA (Easi.Lit 0)))
       (Easi.Assign final (Easi.Lit 1))
    (Easi.If (Easi.Ge fineA (Easi.Lit 9))
       (Easi.Assign final (Easi.Lit 2))
     Easi.Skip))
  (Easi.If (Easi.Eq coarse (Easi.Lit 7))
    (Easi.If (Easi.Ge fineB (Easi.Lit 5))
       (Easi.Assign final (Easi.Lit 9))
    (Easi.If (Easi.And (Easi.Lt fineB (Easi.Lit 5)) (Easi.Gt fineB (Easi.Lit 0)))
       (Easi.Assign final (Easi.Lit 8))
     Easi.Skip))
   Easi.Skip)).

(* ================================================================== *)
(** ** Calls into PCI Geomatica

    One constructor per routine the [try] block calls, with the arguments in
    the order the source passes them.  Channel and segment numbers of the
    working file are [nat]; the float literals [1.0] and [0.01] are the
    rationals they denote. *)

Inductive pci_call : Type :=
| OpenDataset (file : string)
| Cim (ifile tex1 tex2 : string) (dbsz pxsz dbnc : list Z) (dblayout : string)
| BasicWriter (file : string)
| Pcimod (ifile pciop : string) (pcival : list Z)
| Iii (fili filo : string) (dbic : list Z) (dboc : list nat) (dbiw dbow : list Z)
| Poly2bit (fili : string) (dbvs : list Z) (filo dbsd : string)
    (pixres : list Z) (ftype foptions : string)
| Model (ifile : string) (source : Easi.stmt) (undefval : list Z)
| Tex (ifile : string) (dbic : list nat) (texture : list Z) (dboc : list nat)
    (flsz greylev spatial : list Z)
| Fkuan (ifile : string) (dbic dboc : list nat) (flsz : list Z) (mask : list nat)
    (nlook : list Q) (imagefmt : string)
| Mcd (ifile desc : string) (dboc : list nat)
| Fme (ifile : string) (dbic dboc : list nat) (flsz : list Z) (mask : list nat)
    (bgrange failvalu : list Z) (bgzero : string)
| Fuzclus (ifile : string) (dbic dboc mask : list nat) (numclus : list Z)
    (seedfile : string) (maxiter : list Z) (movethrs : list Q) (siggen : string)
    (backval nsam : list Z)
| Sieve (ifile : string) (dbic dboc : list nat) (sthresh keepvalu connect : list Z)
| Thr (ifile : string) (dbic dbob : list nat) (tval : list Z) (comp dbsn dbsd : string)
| Pctread (ifile : string) (dbpct : list nat) (dbsn dbsd pctform tfile : string)
| Fexport (fili filo : string) (dbiw : list Z) (dbic dbib dbvs dblut dbpct : list nat)
    (ftype foptions : string).

(** The parameters of [icemapr]. *)
Record arguments : Type := {
  infile : string;
  infilec : Z;
  inmask : string;
  inmasks : Z;
  inpct : string;
  outfile : string;
  logfile : option string;
  logdetails : Z
}.

(** What the run takes from its surroundings. *)
Record environment : Type := {
  tempdir : string;                 (* tempfile.gettempdir() *)
  now : string;                     (* datetime.now().strftime("%y%m%d_%H%M%S") *)
  mkstemp_stem : string;            (* the part of the name mkstemp chooses *)
  dataset_size : Z * Z;             (* dataset.width, dataset.height *)
  pci_ok : pci_call -> bool;        (* false: the call raises *)
  pci_message : pci_call -> string; (* e.message of what it raises *)
  pctread_nseg : list nat;          (* what pctread returns *)
  remove_ok : string -> bool        (* false: os.remove raises *)
}.

(** [tempfile.mkstemp(suffix=...)]: a new file in the temporary directory. *)
Definition mkstemp (env : environment) (suffix : string) : string :=
  path_join (tempdir env) ("tmp" ++ mkstemp_stem env ++ suffix).

(** Line 146. *)
Definition tmpfile_name (env : environment) : string :=
  path_join (tempdir env) ("icemap_tmpfile_" ++ now env ++ ".pix").

(** The [n]-th element of a Python list of channels (0-based). *)
Definition pyidx (l : list nat) (n : nat) : nat := nth n l 0%nat.

(** The calls of the [try] block, lines 141-401, in order.  [inmasks] is the
    segment number after the shapefile correction and [pct2use] the legend
    file chosen before the block. *)
Definition pipeline (env : environment) (a : arguments) (inmasks : Z)
    (pct2use : string) : list pci_call :=
  let tmpfile := tmpfile_name env in
  let width := fst (dataset_size env) in
  let height := snd (dataset_size env) in
  let ifile := tmpfile in
  let segment := 1%nat in
  let chan_sar := [7%nat] in
  let segment := (segment + 1)%nat in
  let riverMask := segment in
  let chan_tex := [8; 9; 10]%nat in
  let chan_fkuan := [11%nat] in
  let chan_fme := [12%nat] in
  let chan_fuz1 := [1%nat] in
  let chan_sieve := [2%nat] in
  let segment := (segment + 1)%nat in
  let class1Mask := segment in
  let chan_fuz2 := [3%nat] in
  let segment := (segment + 1)%nat in
  let class7Mask := segment in
  let chan_fuzclus3 := [4%nat] in
  let chan_mosaic3 := [5%nat] in
  let chan_sieve2 := [6%nat] in
  let nseg := pctread_nseg env in
  [ OpenDataset (infile a);
    Cim ifile "Temporary file for Icemap results" "" [width; height] [] [6; 0; 0; 0] "BAND";
    BasicWriter tmpfile;
    Pcimod ifile "ADD" [0; 0; 0; 6];
    Iii (infile a) tmpfile [infilec a] chan_sar [] [];
    Poly2bit (inmask a) [inmasks] tmpfile "River mask" [] "" "";
    Model ifile (crop_source chan_sar riverMask) [];
    Tex ifile chan_sar [2; 4; 7] chan_tex [7; 7] [256] [1; 1];
    Fkuan ifile chan_sar chan_fkuan [7; 7] [] [1#1]%Q "AMP";
    Mcd ifile "FKUAN result" chan_fkuan;
    Fme ifile chan_fkuan chan_fme [3; 3] [riverMask] [] [] "";
    Mcd ifile "FME result" chan_fme;
    Fuzclus ifile [pyidx chan_tex 1] chan_fuz1 [riverMask] [7] "" [20] [1#100]%Q "" [] [];
    Sieve ifile chan_fuz1 chan_sieve [12] [0] [4];
    Thr ifile chan_sieve [] [1; 1] "OFF" "THR_1" "MASK_CLASS_1";
    Fuzclus ifile chan_tex chan_fuz2 [class1Mask] [20] "" [20] [1#100]%Q "" [] [];
    Thr ifile chan_sieve [] [7; 7] "OFF" "THR_7" "MASK_CLASS_7";
    Fuzclus ifile chan_fme chan_fuzclus3 [class7Mask] [8] "" [20] [1#100]%Q "" [] [];
    Model ifile (fusion_source chan_sieve chan_mosaic3 chan_fuz2 chan_fuzclus3) [];
    Mcd tmpfile "Model" chan_mosaic3;
    Sieve ifile chan_mosaic3 chan_sieve2 [12] [0] [4];
    Pctread tmpfile [] "PCT" "PCT for showing results of icemap classification" "ATT" pct2use;
    Fexport tmpfile (outfile a) [] chan_sieve2 [] [] [] nseg "TIF" "" ].

(* ================================================================== *)
(** ** The run: file system, log, [createPCT], [icemapr], [main] *)

#[local] Unset Elimination Schemes.

Inductive file : Type :=
| UserData (tag : nat)     (* a file that was there before the run *)
| Text (content : string)  (* a text file written by the run *)
| Pcidsk                   (* the working file made by cim *)
| GeoTiff                  (* the raster written by fexport *)
| LogFile (before : option file).
    (* a file the log handler has open for appending: what it held before,
       if it was there, followed by the records the handler writes *)

#[local] Set Elimination Schemes.

Inductive level : Type := INFO | WARNING | ERROR.

Record log_record : Type := { lvl : level; msg : string }.

Record world : Type := {
  fs : gmap string file;      (* paths that exist, with what they hold *)
  log : list log_record;      (* records handed to the logger, oldest first *)
  calls : list pci_call       (* PCI calls made, oldest first *)
}.

Definition logger (l : level) (m : string) (w : world) : world :=
  {| fs := fs w; log := log w ++ [{| lvl := l; msg := m |}]; calls := calls w |}.

Definition path_exists (w : world) (p : string) : bool :=
  bool_decide (is_Some (fs w !! p)).

Definition write_file (p : string) (f : file) (w : world) : world :=
  {| fs := <[p := f]> (fs w); log := log w; calls := calls w |}.

(** [os.remove]: [None] when it raises. *)
Definition os_remove (env : environment) (p : string) (w : world) : option world :=
  if remove_ok env p && path_exists w p
  then Some {| fs := delete p (fs w); log := log w; calls := calls w |}
  else None.

(** The two legends of [createPCT], lines 456-466 and 471-481. *)
Definition thaw_pct : string :=
"! pseudo-colour table (attribute format)
!
! min: max  ;  red  green  blue
!
          0 ;    0     0      0
          1 ;    0     0    153
          2 ;   51   102    255
   3 :    4 ;  204   204    255
   5 :    7 ;  207   109    215
   8 :    9 ;  142     0    142
  10 :  255 ;  255   255    255".

Definition freeze_pct : string :=
"! pseudo-colour table (attribute format)
!
! min: max  ;  red  green  blue
!
          0 ;    0     0      0
   1 :    2 ;    0     0    102
          3 ;   51   102    255
   4 :    5 ;  204   255    255
   6 :    7 ;  255   204    255
   8 :    9 ;  153    51    102
  10 :  255 ;  255   255    255".

(** [createPCT(season)], lines 452-486: writes the legend text to a new
    temporary file and returns its name. *)
Definition createPCT (env : environment) (season : string) (w : world)
    : string * world :=
  let '(pct, w) :=
    if String.eqb (lower season) "thaw" then (thaw_pct, w)
    else
      let w :=
        if negb (String.eqb (lower season) "freeze")
        then logger WARNING "Invalid value in selecting legend. Freezing legend applied!" w
        else w in
      (freeze_pct, w) in
  let name := mkstemp env ".txt" in
  (name, write_file name (Text pct) w).

(** The loop of lines 111-114 over [zip([infile, inmask], [...])]: the first
    file that does not exist, with its label. *)
Fixpoint first_missing (w : world) (l : list (string * string))
    : option (string * string) :=
  match l with
  | [] => None
  | (f, k) :: l' => if path_exists w f then first_missing w l' else Some (f, k)
  end.

(** Lines 116-119: a shapefile has its data in segment 1. *)
Definition shapefile_segment (a : arguments) (w : world) : Z * world :=
  if String.eqb (snd (splitext (inmask a))) ".shp" then
    if negb (inmasks a =? 1) then
      (1, logger WARNING
            "The segment number for a shapefile is always 1. Input value changed for the process!" w)
    else (inmasks a, w)
  else (inmasks a, w).

(** Lines 122-131: the legend to use, or the value returned at once. *)
Definition select_legend (env : environment) (a : arguments) (w : world)
    : (pyval + string) * world :=
  if str_in (lower (inpct a)) ["freeze"; "thaw"] then
    let '(name, w) := createPCT env (inpct a) w in (inr name, w)
  else if String.eqb (snd (splitext (inpct a))) ".txt" then
    if negb (path_exists w (inpct a)) then
      (inl (PyBool false),
       logger ERROR ("PCT file doesn't exists! Looked for " ++ inpct a) w)
    else (inr (inpct a), w)
  else
    (inl (PyInt 1), logger ERROR "Invalid legend file format! Need to be a text file." w).

(** What a completed PCI call leaves on disk: [cim] makes the working file
    and [fexport] the output raster; the others work inside the working file. *)
Definition effect (c : pci_call) (w : world) : world :=
  match c with
  | Cim ifile _ _ _ _ _ _ => write_file ifile Pcidsk w
  | Fexport _ filo _ _ _ _ _ _ _ _ => write_file filo GeoTiff w
  | _ => w
  end.

Definition record_call (c : pci_call) (w : world) : world :=
  {| fs := fs w; log := log w; calls := calls w ++ [c] |}.

(** The body of the [try]: the calls one after the other, up to the first one
    that raises; [Some c] is the call that raised. *)
Fixpoint run_calls (env : environment) (cs : list pci_call) (w : world)
    : option pci_call * world :=
  match cs with
  | [] => (None, w)
  | c :: cs' =>
      let w := record_call c w in
      if pci_ok env c then run_calls env cs' (effect c w) else (Some c, w)
  end.

(** Lines 413-423: removal of the scratch files, any exception swallowed. *)
Definition cleanup (env : environment) (a : arguments) (pct2use : string)
    (w : world) : world :=
  let removed_pct :=
    if str_in (inpct a) ["freeze"; "thaw"] then os_remove env pct2use w else Some w in
  match removed_pct with
  | None => logger INFO "Temporary file may not be deleted" w
  | Some w1 =>
      match os_remove env (tmpfile_name env) w1 with
      | None => logger INFO "Temporary file may not be deleted" w1
      | Some w2 => logger INFO "Temporary file deleted" w2
      end
  end.

(** Lines 122-425 of [icemapr]: legend, output check, the [try] block and
    the removal of the scratch files.  [inmasks] is the segment number after
    the shapefile correction. *)
Definition process (env : environment) (a : arguments) (inmasks : Z) (w : world)
    : pyval * world :=
  match select_legend env a w with
  | (inl r, w) => (r, w)
  | (inr pct2use, w) =>
      if path_exists w (outfile a) then
        (PyBool false,
         logger ERROR
           "Output file already exists! The file must be deleted before running this process." w)
      else
        match run_calls env (pipeline env a inmasks pct2use) w with
        | (Some c, w) => (PyBool false, logger ERROR (pci_message env c) w)
        | (None, w) =>
            let w := logger INFO "Icemap produced successfully" w in
            (PyBool true, cleanup env a pct2use w)
        end
  end.

(** [icemapr], lines 62-425, from line 109 on: the checks, the [try] block
    and the clean-up, on the world as the logger set-up of line 102 leaves
    it.  The set-up and the log file it opens are in [icemapr_call]. *)
Definition icemapr (env : environment) (a : arguments) (w : world) : pyval * world :=
  match first_missing w [(infile a, "Input image file"); (inmask a, "Input mask")] with
  | Some (f, k) =>
      (PyBool false, logger ERROR (k ++ " doesn't exists! Looked for " ++ f) w)
  | None =>
      let '(inmasks, w) := shapefile_segment a w in
      process env a inmasks w
  end.

(** The namespace [parser.parse_args] returns. *)
Record namespace : Type := {
  ns_infile : string;
  ns_infilec : Z;
  ns_inmask : string;
  ns_inmasks : Z;
  ns_pct : string;
  ns_outfile : string;
  ns_logfile : string;
  ns_pctfile : option string;
  ns_logdetails : Z
}.

(** The [choices] of the parser: outside them [parse_args] exits with 2. *)
Definition parse_ok (n : namespace) : bool :=
  str_in (ns_pct n) ["freeze"; "thaw"] && (1 <=? ns_logdetails n) && (ns_logdetails n <=? 5).

(** [main], lines 489-539, from the parsed arguments on and on the world
    as the logger set-up of line 512 leaves it; the result is the exit code.
    The set-up and the log file it opens are in [main_call]. *)
Definition main (env : environment) (n : namespace) (w : world) : Z * world :=
  if negb (parse_ok n) then (2, w)
  else
    let pct2use :=
      match ns_pctfile n with
      | Some p => if String.eqb p "" then ns_pct n else p
      | None => ns_pct n
      end in
    let a := {| infile := ns_infile n; infilec := ns_infilec n;
                inmask := ns_inmask n; inmasks := ns_inmasks n;
                inpct := pct2use; outfile := ns_outfile n;
                logfile := None; logdetails := 2 |} in
    let '(r, w) := icemapr env a w in
    if negb (truthy r) then
      let w := logger WARNING
        "Problems occured within icemapr function and output may not be produced." w in
      let w := logger WARNING
        "Check log file and temporary file for information about the problems." w in
      (1, w)
    else (0, logger INFO "Icemapr successfully closed" w).

(* ================================================================== *)
(** ** Where each channel of the working file comes from *)

#[local] Unset Elimination Schemes.

(** The content of a channel or segment, as the expression that made it. *)
Inductive layer : Type :=
| Blank
| Georeferencing
| Imported (fili : string) (chan : Z)
| Rasterized (fili : string) (seg : Z)
| Scripted (source : Easi.stmt) (target : Easi.ref) (before : layer) (inputs : list layer)
| Texture (measure : Z) (flsz greylev spatial : list Z) (src : layer)
| Kuan (flsz : list Z) (nlook : list Q) (imagefmt : string) (src : layer) (mask : list layer)
| Median (flsz : list Z) (src : layer) (mask : list layer)
| Clusters (numclus maxiter : list Z) (movethrs : list Q) (inputs mask : list layer)
| Sieved (sthresh keepvalu connect : list Z) (src : layer)
| Threshold (tval : list Z) (comp : string) (src : layer)
| PctTable (tfile : string).

#[local] Set Elimination Schemes.

(** A PCIDSK file: channels and segments, both numbered from 1. *)
Record pcidsk : Type := { chans : list layer; segs : list layer }.

Definition chan_at (f : pcidsk) (c : nat) : layer :=
  match c with
  | O => Blank
  | S i => default Blank (chans f !! i)
  end.

Definition seg_at (f : pcidsk) (s : nat) : layer :=
  match s with
  | O => Blank
  | S i => default Blank (segs f !! i)
  end.

Definition set_chan (c : nat) (l : layer) (f : pcidsk) : pcidsk :=
  {| chans := <[pred c := l]> (chans f); segs := segs f |}.

Definition set_seg (s : nat) (l : layer) (f : pcidsk) : pcidsk :=
  {| chans := chans f; segs := <[pred s := l]> (segs f) |}.

Definition add_seg (l : layer) (f : pcidsk) : pcidsk :=
  {| chans := chans f; segs := segs f ++ [l] |}.

Definition ref_at (f : pcidsk) (r : Easi.ref) : layer :=
  match r with
  | Easi.Chan c => chan_at f c
  | Easi.Bitmap s => seg_at f s
  end.

Definition set_ref (r : Easi.ref) (l : layer) (f : pcidsk) : pcidsk :=
  match r with
  | Easi.Chan c => set_chan c l f
  | Easi.Bitmap s => set_seg s l f
  end.

Definition total (l : list Z) : nat := Z.to_nat (fold_right Z.add 0 l).

(** A call on the working file, read the way the source labels its
    arguments (input channel, output channel, area mask, new bitmap): the
    routine writes, into the channels and segments it is given as outputs, a
    term over what it was given as inputs; a routine asked for a new segment
    appends it, which is the numbering the source's [segment += 1] follows. *)
Definition exec_sym (c : pci_call) (f : pcidsk) : pcidsk :=
  match c with
  | Cim _ _ _ _ _ dbnc _ =>
      {| chans := replicate (total dbnc) Blank; segs := [Georeferencing] |}
  | Pcimod _ pciop pcival =>
      if String.eqb pciop "ADD"
      then {| chans := chans f ++ replicate (total pcival) Blank; segs := segs f |}
      else f
  | Iii fili _ dbic dboc _ _ =>
      fold_right (fun io g => set_chan (snd io) (Imported fili (fst io)) g) f (zip dbic dboc)
  | Poly2bit fili dbvs _ _ _ _ _ =>
      fold_left (fun g s => add_seg (Rasterized fili s) g) dbvs f
  | Model _ source _ =>
      fold_right
        (fun r g => set_ref r (Scripted source r (ref_at f r) (map (ref_at f) (Easi.reads source))) g)
        f (Easi.assigned source)
  | Tex _ dbic texture dboc flsz greylev spatial =>
      fold_right
        (fun mo g => set_chan (snd mo) (Texture (fst mo) flsz greylev spatial (chan_at f (idx0 dbic))) g)
        f (zip texture dboc)
  | Fkuan _ dbic dboc flsz mask nlook imagefmt =>
      fold_right
        (fun io g => set_chan (snd io) (Kuan flsz nlook imagefmt (chan_at f (fst io)) (map (seg_at f) mask)) g)
        f (zip dbic dboc)
  | Fme _ dbic dboc flsz mask _ _ _ =>
      fold_right
        (fun io g => set_chan (snd io) (Median flsz (chan_at f (fst io)) (map (seg_at f) mask)) g)
        f (zip dbic dboc)
  | Fuzclus _ dbic dboc mask numclus _ maxiter movethrs _ _ _ =>
      fold_right
        (fun o g => set_chan o (Clusters numclus maxiter movethrs (map (chan_at f) dbic) (map (seg_at f) mask)) g)
        f dboc
  | Sieve _ dbic dboc sthresh keepvalu connect =>
      fold_right
        (fun io g => set_chan (snd io) (Sieved sthresh keepvalu connect (chan_at f (fst io))) g)
        f (zip dbic dboc)
  | Thr _ dbic dbob tval comp _ _ =>
      let l := Threshold tval comp (chan_at f (idx0 dbic)) in
      match dbob with
      | [] => add_seg l f
      | s :: _ => set_seg s l f
      end
  | Pctread _ dbpct _ _ _ tfile =>
      match dbpct with
      | [] => add_seg (PctTable tfile) f
      | s :: _ => set_seg s (PctTable tfile) f
      end
  | OpenDataset _ | BasicWriter _ | Mcd _ _ _ | Fexport _ _ _ _ _ _ _ _ _ _ => f
  end.

(** The working file after a sequence of calls. *)
Definition working_file (cs : list pci_call) : pcidsk :=
  fold_left (fun f c => exec_sym c f) cs {| chans := []; segs := [] |}.

Definition is_fuzclus (c : pci_call) : bool :=
  match c with
  | Fuzclus _ _ _ _ _ _ _ _ _ _ _ => true
  | _ => false
  end.

Definition is_sieve (c : pci_call) : bool :=
  match c with
  | Sieve _ _ _ _ _ _ => true
  | _ => false
  end.

(** Channels of the working file whose pixel values a call writes. *)
Definition ref_chan (r : Easi.ref) : list nat :=
  match r with
  | Easi.Chan c => [c]
  | Easi.Bitmap _ => []
  end.

Definition writes (c : pci_call) : list nat :=
  match c with
  | Iii _ _ _ dboc _ _ => dboc
  | Model _ source _ => flat_map ref_chan (Easi.assigned source)
  | Tex _ _ _ dboc _ _ _ => dboc
  | Fkuan _ _ dboc _ _ _ _ => dboc
  | Fme _ _ dboc _ _ _ _ _ => dboc
  | Fuzclus _ _ dboc _ _ _ _ _ _ _ _ => dboc
  | Sieve _ _ dboc _ _ _ => dboc
  | _ => []
  end.

(* ================================================================== *)
(** ** Pixel values: the fusion step and the second sieve pass *)

(** A raster file as its pixels in row-major order. *)
Record image : Type := { width : nat; pixels : list Easi.pixel }.

Definition channel (c : nat) (im : image) : list Z :=
  map (fun p => Easi.img p c) (pixels im).

(** [model(ifile, source, undefval)]: the script, pixel by pixel. *)
Definition model_image (source : Easi.stmt) (im : image) : image :=
  {| width := width im; pixels := map (Easi.exec source) (pixels im) |}.

Definition store_channel (c : nat) (r : list Z) (im : image) : image :=
  {| width := width im;
     pixels := zip_with (fun p v => Easi.set p (Easi.Chan c) v) (pixels im) r |}.

(** [sieve(ifile, dbic, dboc, ...)] for a sieve [sv] on rasters. *)
Definition sieve_image (sv : nat -> list Z -> list Z) (dbic dboc : nat) (im : image)
    : image :=
  store_channel dboc (sv (width im) (channel dbic im)) im.

(** The value of every pixel of a channel that [cim] or [pcimod] allocated
    and nothing has written yet: a PCIDSK channel is zero-filled when it is
    created. *)
Definition blank_value : Z := 0.

(** The pipeline up to, and without, the fusion script (its first 18 calls). *)
Definition before_fusion (env : environment) (a : arguments) (inmasks : Z)
    (pct2use : string) : list pci_call :=
  take 18 (pipeline env a inmasks pct2use).

(** The channels written before the fusion script runs: the radar copy,
    the texture bands, the two filters, and the coarse, sieved and fine
    class maps (lemma [written_before_fusion_eq]). *)
Definition written_before_fusion : list nat :=
  [7; 8; 9; 10; 11; 12; 1; 2; 3; 4]%nat.

(** A pixel as the fusion script finds it: whatever the earlier stages wrote
    ([v]) in the channels they wrote, and the allocation value elsewhere. *)
Definition pixel_before_fusion (v : Easi.pixel) : Easi.pixel :=
  {| Easi.img := fun c =>
       if bool_decide (c ∈ written_before_fusion) then Easi.img v c else blank_value;
     Easi.bit := Easi.bit v |}.

(** The fusion script with the channel lists of lines 282-348. *)
Definition fusion : Easi.stmt := fusion_source [2%nat] [5%nat] [3%nat] [4%nat].

(** The rule table in the words of the specification. *)
Definition background : Z := 0.

Definition rule_table (coarse fineA fineB : Z) : Z :=
  if (1 <? coarse) && (coarse <? 7) then coarse + 1
  else if coarse =? 1 then
    if (0 <? fineA) && (fineA <? 9) then 1
    else if 9 <=? fineA then 2
    else background
  else if coarse =? 7 then
    if 5 <=? fineB then 9
    else if (0 <? fineB) && (fineB <? 5) then 8
    else background
  else background.

(** The class map that is exported: channel 6, written by the second sieve
    pass from channel 5, which the fusion script wrote. *)
Definition final_class_map (sv : nat -> list Z -> list Z) (im : image) : list Z :=
  channel 6 (sieve_image sv 5 6 (model_image fusion im)).

(* ================================================================== *)
(** ** RegionSieve *)

Module RegionSieve.

Definition value_at (r : list Z) (i : nat) : Z := nth i r 0.

Definition mem (i : nat) (l : list nat) : bool := existsb (Nat.eqb i) l.

(** The 4-neighbours of pixel [i] in a raster [w] pixels wide. *)
Definition neighbours4 (w : nat) (r : list Z) (i : nat) : list nat :=
  List.filter (fun j => j <? length r)%nat
    ((if (i mod w =? 0)%nat then [] else [i - 1]%nat) ++
     (if ((i + 1) mod w =? 0)%nat then [] else [i + 1]%nat) ++
     (if (i <? w)%nat then [] else [i - w]%nat) ++
     [i + w]%nat).

(** One round of region growing: the pixels of [s], and the pixels of
    value [v] next to one of them. *)
Definition grow (w : nat) (r : list Z) (v : Z) (s : list nat) : list nat :=
  List.filter
    (fun j => mem j s || ((value_at r j =? v) && existsb (fun k => mem k s) (neighbours4 w r j)))
    (seq 0 (length r)).

(** The 4-connected component of pixel [i]. *)
Definition component (w : nat) (r : list Z) (i : nat) : list nat :=
  Nat.iter (length r) (grow w r (value_at r i)) [i].

(** The pixels next to a component and outside it. *)
Definition border (w : nat) (r : list Z) (c : list nat) : list nat :=
  List.filter (fun j => negb (mem j c)) (flat_map (neighbours4 w r) c).

(** Of two neighbouring pixels, the one in the larger component; on equal
    areas, the one of lower value. *)
Definition prefer (w : nat) (r : list Z) (j k : nat) : nat :=
  let sj := length (component w r j) in
  let sk := length (component w r k) in
  if (sk <? sj)%nat then j
  else if (sj <? sk)%nat then k
  else if value_at r k <? value_at r j then k else j.

Definition largest_neighbour (w : nat) (r : list Z) (c : list nat) : option nat :=
  match border w r c with
  | [] => None
  | j :: js => Some (fold_left (prefer w r) js j)
  end.

Definition sieve_pixel (sthresh : Z) (keepvalu : list Z) (w : nat) (r : list Z)
    (i : nat) : Z :=
  let v := value_at r i in
  let c := component w r i in
  if (Z.of_nat (length c) <? sthresh) && negb (existsb (Z.eqb v) keepvalu) then
    match largest_neighbour w r c with
    | Some j => value_at r j
    | None => v
    end
  else v.

(** Modelled from the spec: PCI Geomatica's [sieve] is not part of the
    repository.  Section 4.5: 4-connected component labelling; a component
    with fewer pixels than the threshold takes the value of its largest
    adjacent component, unless its own value is in the keep-set; one pass
    over the labelling of the input; ties between neighbours of equal area
    go to the lowest value. *)
Definition sieve (sthresh : Z) (keepvalu : list Z) (w : nat) (r : list Z) : list Z :=
  map (sieve_pixel sthresh keepvalu w r) (seq 0 (length r)).

End RegionSieve.

(* ================================================================== *)
(** ** Legends: the range-table text and its 256-entry palette *)

Module Legend.

(** One data line: [lo], [hi] (inclusive) and the colour. *)
Record range : Type := { lo : Z; hi : Z; red : Z; green : Z; blue : Z }.

Inductive token : Type :=
| TNum (n : Z)
| TColon
| TSemi
| TBad.

Definition digit_of (c : ascii) : option Z :=
  let n := nat_of_ascii c in
  if ((48 <=? n) && (n <=? 57))%nat then Some (Z.of_nat n - 48) else None.

Definition flush (cur : option Z) : list token :=
  match cur with
  | Some n => [TNum n]
  | None => []
  end.

(** Tokens of one line; [cur] is the number being read. *)
Fixpoint lex (s : string) (cur : option Z) : list token :=
  match s with
  | EmptyString => flush cur
  | String c s' =>
      match digit_of c with
      | Some d => lex s' (Some (10 * default 0 cur + d))
      | None =>
          flush cur ++
          (if Ascii.eqb c ":" then [TColon]
           else if Ascii.eqb c ";" then [TSemi]
           else if Ascii.eqb c " " then []
           else [TBad]) ++
          lex s' None
      end
  end.

(** [<min>[:<max>] ; <R> <G> <B>] *)
Definition parse_line (s : string) : option range :=
  match lex s None with
  | [TNum a; TSemi; TNum r; TNum g; TNum b] =>
      Some {| lo := a; hi := a; red := r; green := g; blue := b |}
  | [TNum a; TColon; TNum z; TSemi; TNum r; TNum g; TNum b] =>
      Some {| lo := a; hi := z; red := r; green := g; blue := b |}
  | _ => None
  end.

(** The lines of a text, split at the newline character. *)
Fixpoint lines_from (s : string) (cur : string) : list string :=
  match s with
  | EmptyString => [cur]
  | String c s' =>
      if Ascii.eqb c "010" then cur :: lines_from s' ""
      else lines_from s' (cur ++ String c "")
  end.

Definition lines (s : string) : list string := lines_from s "".

Definition is_comment (s : string) : bool :=
  match s with
  | String c _ => Ascii.eqb c "!"
  | EmptyString => false
  end.

Definition is_blank (s : string) : bool := all_char " " s.

Fixpoint parse_lines (ls : list string) : option (list range) :=
  match ls with
  | [] => Some []
  | l :: ls' =>
      if is_comment l || is_blank l then parse_lines ls'
      else
        match parse_line l, parse_lines ls' with
        | Some r, Some rs => Some (r :: rs)
        | _, _ => None
        end
  end.

(** Modelled from the spec: the reader of the range-table text is PCI
    Geomatica's [pctread], not part of the repository.  Section 6: lines
    beginning with [!] are comments; data lines are
    [<min>[:<max>] ; <R> <G> <B>]. *)
Definition parse (text : string) : option (list range) := parse_lines (lines text).

Definition covers (i : Z) (r : range) : bool := (lo r <=? i) && (i <=? hi r).

Definition colour (r : range) : Z * Z * Z := (red r, green r, blue r).

(** The colour of index [i]: that of the range covering it, else that of
    the nearest range before it, else the default. *)
Definition lookup_colour (rs : list range) (i : Z) : Z * Z * Z :=
  match List.find (covers i) rs with
  | Some r => colour r
  | None =>
      match List.filter (fun r => hi r <? i) rs with
      | [] => (0, 0, 0)
      | r :: rs' =>
          colour (fold_left (fun best q => if hi best <? hi q then q else best) rs' r)
      end
  end.

(** Modelled from the spec: section 4.8, the expansion of a range table
    to the palette indices 0..255. *)
Definition expand (rs : list range) : list (Z * (Z * Z * Z)) :=
  map (fun i => (Z.of_nat i, lookup_colour rs (Z.of_nat i))) (seq 0 256).

(** The legend [createPCT] writes for a season name. *)
Definition builtin (season : string) : string :=
  if String.eqb (lower season) "thaw" then thaw_pct else freeze_pct.

End Legend.

(* ================================================================== *)
(** ** The wiring of the three clusterings, as the specification names it *)

(** The radar channel copied into the working file. *)
Definition sar (a : arguments) : layer := Imported (infile a) (infilec a).

(** The river mask: the rasterized polygon, cleared where the image is 0. *)
Definition river_mask (a : arguments) (inmasks : Z) : layer :=
  Scripted (crop_source [7%nat] 2) (Easi.Bitmap 2) (Rasterized (inmask a) inmasks) [sar a].

(** One band of the 7x7 texture analysis. *)
Definition texture_band (a : arguments) (measure : Z) : layer :=
  Texture measure [7; 7] [256] [1; 1] (sar a).

(** The Kuan-filtered, median-smoothed amplitude. *)
Definition smoothed_amplitude (a : arguments) (inmasks : Z) : layer :=
  Median [3; 3] (Kuan [7; 7] [1#1]%Q "AMP" (sar a) []) [river_mask a inmasks].

Definition coarse_map (a : arguments) (inmasks : Z) : layer :=
  Clusters [7] [20] [1#100]%Q [texture_band a 4] [river_mask a inmasks].

Definition sieved_coarse_map (a : arguments) (inmasks : Z) : layer :=
  Sieved [12] [0] [4] (coarse_map a inmasks).

Definition class_submask (a : arguments) (inmasks : Z) (class : Z) : layer :=
  Threshold [class; class] "OFF" (sieved_coarse_map a inmasks).

Definition fine_map_A (a : arguments) (inmasks : Z) : layer :=
  Clusters [20] [20] [1#100]%Q
    [texture_band a 2; texture_band a 4; texture_band a 7]
    [class_submask a inmasks 1].

Definition fine_map_B (a : arguments) (inmasks : Z) : layer :=
  Clusters [8] [20] [1#100]%Q [smoothed_amplitude a inmasks] [class_submask a inmasks 7].

(** The three calls of the clusterer, lines 277, 316 and 344. *)
Definition clusterer_calls (env : environment) : list pci_call :=
  [ Fuzclus (tmpfile_name env) [9%nat] [1%nat] [2%nat] [7] "" [20] [1#100]%Q "" [] [];
    Fuzclus (tmpfile_name env) [8; 9; 10]%nat [3%nat] [3%nat] [20] "" [20] [1#100]%Q "" [] [];
    Fuzclus (tmpfile_name env) [12%nat] [4%nat] [4%nat] [8] "" [20] [1#100]%Q "" [] [] ].

(* ================================================================== *)
(** ** Sample inputs *)

Definition env_ok : environment :=
  {| tempdir := "/tmp"; now := "160331_101500"; mkstemp_stem := "k3v9qa";
     dataset_size := (500, 500); pci_ok := fun _ => true;
     pci_message := fun _ => ""; pctread_nseg := [5%nat];
     remove_ok := fun _ => true |}.

(** As [env_ok], but the texture analysis raises. *)
Definition env_tex_raises : environment :=
  {| tempdir := "/tmp"; now := "160331_101500"; mkstemp_stem := "k3v9qa";
     dataset_size := (500, 500);
     pci_ok := fun c => match c with Tex _ _ _ _ _ _ _ => false | _ => true end;
     pci_message := fun _ => "TEX failed"; pctread_nseg := [5%nat];
     remove_ok := fun _ => true |}.

(** A disk with the image and the river shapefile. *)
Definition disk : world :=
  {| fs := {[ "scene.pix" := UserData 1; "river.shp" := UserData 2 ]};
     log := []; calls := [] |}.

(** The same disk with a file already at the output path. *)
Definition disk_with_output : world :=
  {| fs := {[ "scene.pix" := UserData 1; "river.shp" := UserData 2;
              "icemap.tif" := UserData 3 ]};
     log := []; calls := [] |}.

Definition run_args (segment : Z) (legend : string) : arguments :=
  {| infile := "scene.pix"; infilec := 1; inmask := "river.shp"; inmasks := segment;
     inpct := legend; outfile := "icemap.tif"; logfile := None; logdetails := 2 |}.

(** [icemapr scene.pix 1 river.shp 1 freeze icemap.tif run.log -p legend.pct] *)
Definition cli_pctfile : namespace :=
  {| ns_infile := "scene.pix"; ns_infilec := 1; ns_inmask := "river.shp";
     ns_inmasks := 1; ns_pct := "freeze"; ns_outfile := "icemap.tif";
     ns_logfile := "run.log"; ns_pctfile := Some "legend.pct"; ns_logdetails := 2 |}.

(** A pixel with the given coarse, fine A and fine B classes. *)
Definition class_pixel (coarse fineA fineB : Z) : Easi.pixel :=
  {| Easi.img := fun c =>
       match c with
       | 2%nat => coarse
       | 3%nat => fineA
       | 4%nat => fineB
       | _ => 0
       end;
     Easi.bit := fun _ => 1 |}.

Definition sample_image : image :=
  {| width := 3;
     pixels := map pixel_before_fusion
       [class_pixel 1 9 0; class_pixel 1 3 0; class_pixel 4 0 0;
        class_pixel 7 0 6; class_pixel 7 0 2; class_pixel 0 0 0] |}.

(** [a] with another segment number. *)
Definition with_inmasks (a : arguments) (s : Z) : arguments :=
  {| infile := infile a; infilec := infilec a; inmask := inmask a; inmasks := s;
     inpct := inpct a; outfile := outfile a; logfile := logfile a;
     logdetails := logdetails a |}.

(** A world with [l] put before its log. *)
Definition prefix_log (l : list log_record) (w : world) : world :=
  {| fs := fs w; log := l ++ log w; calls := calls w |}.

(** The scratch files of a run are gone: the working file, and the legend
    file [createPCT] wrote when the legend was chosen by name. *)
Definition scratch_discarded (env : environment) (a : arguments) (w : world) : Prop :=
  fs w !! tmpfile_name env = None /\
  (str_in (lower (inpct a)) ["freeze"; "thaw"] = true -> fs w !! mkstemp env ".txt" = None).

(** [s] ends in [suf]. *)
Definition ends_in (suf s : string) : Prop := exists pre, s = (pre ++ suf)%string.

(** A legend text that reads as a table of [n] ranges and expands to 256
    palette entries. *)
Definition legend_with_entries (n : nat) (text : string) : Prop :=
  exists rs, Legend.parse text = Some rs /\ length rs = n /\
    length (Legend.expand rs) = 256%nat.

(** The palette entries one range stands for. *)
Definition unroll (r : Legend.range) : list (Z * (Z * Z * Z)) :=
  map (fun k => (Legend.lo r + Z.of_nat k, Legend.colour r))
    (seq 0 (Z.to_nat (Legend.hi r - Legend.lo r + 1))).

(* ================================================================== *)
(** ** Vocabulary for the properties of whole runs *)

(** The record of lines 118. *)
Definition shapefile_warning : log_record :=
  {| lvl := WARNING;
     msg := "The segment number for a shapefile is always 1. Input value changed for the process!" |}.

(** The segment number [poly2bit] is given. *)
Definition effective_segment (a : arguments) : Z :=
  if String.eqb (snd (splitext (inmask a))) ".shp" then 1 else inmasks a.

(** Both input files exist. *)
Definition inputs_present (w : world) (a : arguments) : bool :=
  path_exists w (infile a) && path_exists w (inmask a).

(** The records a run adds to the log. *)
Definition new_records (env : environment) (a : arguments) (w : world)
    : list log_record :=
  drop (length (log w)) (log (snd (icemapr env a w))).

Definition is_error (r : log_record) : bool :=
  match lvl r with
  | ERROR => true
  | _ => false
  end.

Definition is_warning (r : log_record) : bool :=
  match lvl r with
  | WARNING => true
  | _ => false
  end.

(** [w] with an empty log. *)
Definition clear_log (w : world) : world :=
  {| fs := fs w; log := []; calls := calls w |}.


(** The last character of a string. *)
Fixpoint last_of (s : string) : option ascii :=
  match s with
  | EmptyString => None
  | String c s' =>
      match last_of s' with
      | None => Some c
      | r => r
      end
  end.

(** Channels of the working file whose pixel values a call reads. *)
Definition reads_of (c : pci_call) : list nat :=
  match c with
  | Model _ source _ => flat_map ref_chan (Easi.reads source)
  | Tex _ dbic _ _ _ _ _ => dbic
  | Fkuan _ dbic _ _ _ _ _ => dbic
  | Fme _ dbic _ _ _ _ _ _ => dbic
  | Fuzclus _ dbic _ _ _ _ _ _ _ _ _ => dbic
  | Sieve _ dbic _ _ _ _ => dbic
  | Thr _ dbic _ _ _ _ _ => dbic
  | Fexport _ _ _ dbic _ _ _ _ _ _ => dbic
  | _ => []
  end.

(** Every call reads only channels in [written] or written by a call before
    it in the list. *)
Fixpoint defined_before_use (written : list nat) (cs : list pci_call) : bool :=
  match cs with
  | [] => true
  | c :: cs' =>
      forallb (fun ch => existsb (Nat.eqb ch) written) (reads_of c) &&
      defined_before_use (written ++ writes c)%list cs'
  end.

(** The coarse class a final class stands for: 1 and 2 refine class 1,
    3..7 are the classes 2..6 moved up by one, 8 and 9 refine class 7. *)
Definition coarse_of_final (final : Z) : Z :=
  if (1 <=? final) && (final <=? 2) then 1
  else if (3 <=? final) && (final <=? 7) then final - 1
  else if (8 <=? final) && (final <=? 9) then 7
  else 0.

(** The calls of a list that write channel [ch]. *)
Definition writers (ch : nat) (cs : list pci_call) : list pci_call :=
  List.filter (fun c => existsb (Nat.eqb ch) (writes c)) cs.

(* ================================================================== *)
(** ** The logger set-up *)

(** The handlers [setupLogger] installs, each with its level. *)
Inductive handler : Type :=
| RotatingFileHandler (filename mode : string) (maxBytes backupCount : Z) (hlevel : Z)
| StreamHandler (hlevel : Z).

Definition handler_level (h : handler) : Z :=
  match h with
  | RotatingFileHandler _ _ _ _ l => l
  | StreamHandler l => l
  end.

(** The root logger: its handlers, oldest first, and its level. *)
Record pylogger : Type := { handlers : list handler; logger_level : Z }.

(** [setupLogger(filename, level)], lines 427-450. *)
Definition setupLogger (filename : option string) (level : Z) (lg : pylogger)
    : Z * pylogger :=
  if (length (handlers lg) <=? 1)%nat then
    let hs :=
      match filename with
      | Some f => (handlers lg ++ [RotatingFileHandler f "a" 1000000 1 level])%list
      | None => handlers lg
      end in
    (1, {| handlers := (hs ++ [StreamHandler level])%list; logger_level := level |})
  else (0, lg).

(** Several calls in a row, as when [main] and then [icemapr] set the
    logger up, or [icemapr] is called more than once in a process. *)
Definition setup_many (cs : list (option string * Z)) (lg : pylogger) : pylogger :=
  fold_left (fun g c => snd (setupLogger (fst c) (snd c) g)) cs lg.

(** [logging.INFO], [logging.WARNING], [logging.ERROR]. *)
Definition levelno (l : level) : Z :=
  match l with
  | INFO => 20
  | WARNING => 30
  | ERROR => 40
  end.

(** The handlers a record of level [l] is handed to: none when the logger's
    level is above it, else those whose own level is not above it. *)
Definition delivered (lg : pylogger) (l : level) : list handler :=
  if logger_level lg <=? levelno l
  then List.filter (fun h => handler_level h <=? levelno l) (handlers lg)
  else [].

(* ================================================================== *)
(** ** A call, logger set-up included *)

(** How a call ends: it returns a value, or an exception leaves it. *)
Inductive outcome (A : Type) : Type :=
| Returned (x : A)
| Raised (message : string).

Arguments Returned {A} x.
Arguments Raised {A} message.

(** What the run cannot decide about a log file: whether it can be opened,
    and the message of the exception when it cannot. *)
Record log_environment : Type := {
  open_ok : string -> bool;
  open_message : string -> string
}.

(** [setupLogger] together with what it does to the disk.  The
    [RotatingFileHandler] of line 439 opens [filename] in mode [a] as it is
    made: a file that is there is kept and appended to, a file that is not
    there is created.  When opening raises, the level has been set and no
    handler added. *)
Definition setup_logging (le : log_environment) (filename : option string) (level : Z)
    (lg : pylogger) (w : world) : outcome Z * pylogger * world :=
  if (length (handlers lg) <=? 1)%nat then
    match filename with
    | Some f =>
        if open_ok le f then
          (Returned 1,
           {| handlers := (handlers lg ++ [RotatingFileHandler f "a" 1000000 1 level;
                                           StreamHandler level])%list;
              logger_level := level |},
           write_file f (LogFile (fs w !! f)) w)
        else (Raised (open_message le f),
              {| handlers := handlers lg; logger_level := level |}, w)
    | None =>
        (Returned 1,
         {| handlers := (handlers lg ++ [StreamHandler level])%list; logger_level := level |},
         w)
    end
  else (Returned 0, lg, w).

(** A call of [icemapr] as its caller sees it, in a process whose root
    logger is [lg]: the set-up of line 102, then lines 109-425 ([icemapr]
    above).  The set-up is outside the [try] block, so an exception of it
    leaves the function. *)
Definition icemapr_call (env : environment) (le : log_environment) (a : arguments)
    (lg : pylogger) (w : world) : outcome pyval * pylogger * world :=
  match setup_logging le (logfile a) (logdetails a * 10) lg w with
  | (Raised e, lg, w) => (Raised e, lg, w)
  | (Returned _, lg, w) =>
      let '(r, w) := icemapr env a w in
      (Returned r, lg, w)
  end.

(** A call of [main], lines 489-539, from the parsed arguments on: the
    set-up of line 512 on the log file of the command line, then the call
    of [icemapr], which is given no log file.  An exception is caught at
    line 531: its message is logged as an error and the exit code is 1. *)
Definition main_call (env : environment) (le : log_environment) (n : namespace)
    (lg : pylogger) (w : world) : Z * pylogger * world :=
  if negb (parse_ok n) then (2, lg, w)
  else
    match setup_logging le (Some (ns_logfile n)) (ns_logdetails n * 10) lg w with
    | (Raised e, lg, w) => (1, lg, logger ERROR e w)
    | (Returned _, lg, w) =>
        let pct2use :=
          match ns_pctfile n with
          | Some p => if String.eqb p "" then ns_pct n else p
          | None => ns_pct n
          end in
        let a := {| infile := ns_infile n; infilec := ns_infilec n;
                    inmask := ns_inmask n; inmasks := ns_inmasks n;
                    inpct := pct2use; outfile := ns_outfile n;
                    logfile := None; logdetails := 2 |} in
        match icemapr_call env le a lg w with
        | (Raised e, lg, w) => (1, lg, logger ERROR e w)
        | (Returned r, lg, w) =>
            if negb (truthy r) then
              let w := logger WARNING
                "Problems occured within icemapr function and output may not be produced." w in
              let w := logger WARNING
                "Check log file and temporary file for information about the problems." w in
              (1, lg, w)
            else (0, lg, logger INFO "Icemapr successfully closed" w)
        end
    end.

(** The world as the set-up of a call leaves it. *)
Definition after_setup (le : log_environment) (a : arguments) (lg : pylogger) (w : world)
    : world :=
  snd (setup_logging le (logfile a) (logdetails a * 10) lg w).


(** A log environment, a fresh logger, and a call with a log file. *)
Definition logs_open : log_environment :=
  {| open_ok := fun _ => true; open_message := fun _ => "" |}.

Definition fresh_logger : pylogger := {| handlers := []; logger_level := 30 |}.

Definition with_logfile (a : arguments) (f : string) : arguments :=
  {| infile := infile a; infilec := infilec a; inmask := inmask a; inmasks := inmasks a;
     inpct := inpct a; outfile := outfile a; logfile := Some f; logdetails := logdetails a |}.

Definition cli_thaw : namespace :=
  {| ns_infile := "scene.pix"; ns_infilec := 1; ns_inmask := "river.shp";
     ns_inmasks := 1; ns_pct := "thaw"; ns_outfile := "icemap.tif";
     ns_logfile := "run.log"; ns_pctfile := None; ns_logdetails := 2 |}.

(* ================================================================== *)
(** ** Range tables that cover the palette *)

(** The ranges follow one another from [from] on without gap or overlap;
    the result is the first index after the last range. *)
Fixpoint tiles (from : Z) (rs : list Legend.range) : option Z :=
  match rs with
  | [] => Some from
  | r :: rs' =>
      if (Legend.lo r =? from) && (Legend.lo r <=? Legend.hi r)
      then tiles (Legend.hi r + 1) rs'
      else None
  end.

(* ================================================================== *)
(** * Properties *)

Open Scope list_scope.

(** ** The fusion rule table *)

Section FusionRules.

(** The rule table, case by case. *)
Lemma rule_table_middle c a b : 1 < c < 7 -> rule_table c a b = c + 1.
Proof.
  intros [H1 H7]. unfold rule_table.
  destruct (Z.ltb_spec 1 c), (Z.ltb_spec c 7); simpl; lia.
Qed.

Lemma rule_table_one a b :
  rule_table 1 a b = if (0 <? a) && (a <? 9) then 1 else if 9 <=? a then 2 else 0.
Proof. reflexivity. Qed.

Lemma rule_table_seven a b :
  rule_table 7 a b = if 5 <=? b then 9 else if (0 <? b) && (b <? 5) then 8 else 0.
Proof. reflexivity. Qed.

Lemma rule_table_outside c a b : c <= 0 \/ 7 < c -> rule_table c a b = 0.
Proof.
  intros H. unfold rule_table, background.
  destruct (Z.ltb_spec 1 c), (Z.ltb_spec c 7), (Z.eqb_spec c 1), (Z.eqb_spec c 7);
    simpl; lia.
Qed.

(** The examples of section 8. *)
Lemma rule_table_examples a b :
  rule_table 4 a b = 5 /\ rule_table 1 9 b = 2 /\ rule_table 1 8 b = 1 /\
  rule_table 7 a 5 = 9 /\ rule_table 7 a 4 = 8 /\ rule_table 0 a b = 0.
Proof. repeat split. Qed.

(** The fusion script is the 19th call of the pipeline, on the working
    file, and nothing before it writes channel 5. *)
Lemma fusion_call env a m p :
  pipeline env a m p !! 18%nat = Some (Model (tmpfile_name env) fusion []).
Proof. reflexivity. Qed.

Lemma written_before_fusion_eq env a m p :
  flat_map writes (before_fusion env a m p) = written_before_fusion.
Proof. reflexivity. Qed.

Lemma mosaic_channel_unwritten : (5%nat ∉ written_before_fusion).
Proof. apply (bool_decide_unpack _). by vm_compute. Qed.

(** A pixel that no rule assigns keeps the value it had. *)
Lemma fusion_fallthrough (p : Easi.pixel) :
  let c := Easi.img p 2 in
  (c <= 0 \/ 7 < c \/ (c = 1 /\ Easi.img p 3 <= 0) \/ (c = 7 /\ Easi.img p 4 <= 0)) ->
  Easi.exec fusion p = p.
Proof.
  intros c H. subst c. unfold fusion, fusion_source. simpl.
  repeat match goal with
  | |- context [if ?b then _ else _] =>
      let E := fresh "E" in destruct b eqn:E; simpl; try lia
  end; reflexivity.
Qed.

End FusionRules.

(** C1: for every pixel, the class the fusion script leaves in channel 5 is
    the rule table applied to the sieved coarse class (channel 2), fine class
    A (channel 3) and fine class B (channel 4): coarse + 1 for 1 < coarse < 7;
    for coarse = 1: 1 when 0 < fineA < 9, 2 when fineA >= 9, else 0; for
    coarse = 7: 9 when fineB >= 5, 8 when 0 < fineB < 5, else 0; and 0 for
    every other coarse value. *)
Theorem fusion_matches_rule_table (v : Easi.pixel) :
  Easi.img (Easi.exec fusion (pixel_before_fusion v)) 5 =
  rule_table (Easi.img v 2) (Easi.img v 3) (Easi.img v 4).
Proof.
  unfold fusion, fusion_source, rule_table, background, blank_value. simpl.
  repeat match goal with
  | |- context [if ?b then _ else _] =>
      let E := fresh "E" in destruct b eqn:E; simpl; try lia
  end; reflexivity.
Qed.

(** ** The value domain of the class map *)

Lemma rule_table_range c a b : 0 <= rule_table c a b <= 9.
Proof.
  unfold rule_table, background.
  repeat match goal with
  | |- context [if ?t then _ else _] =>
      let E := fresh "E" in destruct t eqn:E; try lia
  end.
Qed.

Lemma channel_store c r im :
  channel c (store_channel c r im) = take (length (pixels im)) r.
Proof.
  unfold channel, store_channel. simpl.
  generalize (pixels im) as ps. intros ps. revert r.
  induction ps as [|p ps IH]; intros [|x r]; simpl; try reflexivity.
  rewrite Nat.eqb_refl. f_equal. apply IH.
Qed.

Lemma fused_channel (w : nat) (vs : list Easi.pixel) :
  channel 5 (model_image fusion {| width := w; pixels := map pixel_before_fusion vs |}) =
  map (fun v => rule_table (Easi.img v 2) (Easi.img v 3) (Easi.img v 4)) vs.
Proof.
  unfold channel, model_image. simpl. rewrite !map_map.
  apply map_ext. intros v.
  unfold fusion, fusion_source, rule_table, background, blank_value. simpl.
  repeat match goal with
  | |- context [if ?t then _ else _] =>
      let E := fresh "E" in destruct t eqn:E; simpl; try lia
  end; reflexivity.
Qed.

Lemma in_take {A} (x : A) n (l : list A) : In x (take n l) -> In x l.
Proof.
  revert n. induction l as [|y l IH]; intros [|n]; simpl; try tauto.
  intros [H|H]; eauto.
Qed.

Module RegionSieveFacts.
Import RegionSieve.

Lemma neighbours4_lt w r i j : In j (neighbours4 w r i) -> (j < length r)%nat.
Proof.
  unfold neighbours4. intros H. apply List.filter_In in H as [_ H].
  by apply Nat.ltb_lt.
Qed.

Lemma border_lt w r c j : In j (border w r c) -> (j < length r)%nat.
Proof.
  unfold border. intros H. apply List.filter_In in H as [H _].
  apply in_flat_map in H as (i & _ & H). eauto using neighbours4_lt.
Qed.

Lemma prefer_either w r j k : prefer w r j k = j \/ prefer w r j k = k.
Proof. unfold prefer. repeat case_match; auto. Qed.

Lemma fold_prefer_in w r js : forall j, In (fold_left (prefer w r) js j) (j :: js).
Proof.
  induction js as [|k js IH]; intros j; simpl; [auto|].
  destruct (IH (prefer w r j k)) as [H|H]; [|auto].
  rewrite <- H. destruct (prefer_either w r j k) as [->| ->]; auto.
Qed.

Lemma largest_neighbour_lt w r c j :
  largest_neighbour w r c = Some j -> (j < length r)%nat.
Proof.
  unfold largest_neighbour. destruct (border w r c) as [|k ks] eqn:E; [discriminate|].
  intros [= <-]. apply (border_lt w r c). rewrite E. apply fold_prefer_in.
Qed.

(** A pixel keeps its value or takes the value of another pixel. *)
Lemma sieve_pixel_in t keep w r i :
  (i < length r)%nat -> In (sieve_pixel t keep w r i) r.
Proof.
  intros Hi. unfold sieve_pixel, value_at.
  destruct (_ && _); [|by apply nth_In].
  destruct (largest_neighbour w r _) as [j|] eqn:E; apply nth_In; [|done].
  eauto using largest_neighbour_lt.
Qed.

Lemma sieve_values t keep w r v : In v (sieve t keep w r) -> In v r.
Proof.
  unfold sieve. intros H. apply in_map_iff in H as (i & <- & Hi).
  apply in_seq in Hi. apply sieve_pixel_in. lia.
Qed.

Lemma sieve_length t keep w r : length (sieve t keep w r) = length r.
Proof. unfold sieve. by rewrite length_map, length_seq. Qed.

End RegionSieveFacts.

(** C2: the class map that is exported, channel 6 after the second sieve
    pass over the fusion output, holds only values from 0 to 9, for every
    sieve that gives each pixel a value already present in its input (the
    merge the source describes at lines 369-370). *)
Theorem final_class_map_domain (sv : nat -> list Z -> list Z)
    (Hsv : forall w r v, In v (sv w r) -> In v r)
    (w : nat) (vs : list Easi.pixel) :
  Forall (fun x => 0 <= x <= 9)
    (final_class_map sv {| width := w; pixels := map pixel_before_fusion vs |}).
Proof.
  unfold final_class_map, sieve_image. rewrite channel_store.
  apply List.Forall_forall. intros x Hx.
  assert (Hin : In x (sv (width (model_image fusion
            {| width := w; pixels := map pixel_before_fusion vs |}))
          (channel 5 (model_image fusion
            {| width := w; pixels := map pixel_before_fusion vs |})))).
  { eapply in_take. exact Hx. }
  apply Hsv in Hin. rewrite fused_channel in Hin.
  apply in_map_iff in Hin as (v & <- & _). apply rule_table_range.
Qed.

Lemma final_class_map_domain_witness :
  Forall (fun x => 0 <= x <= 9) (final_class_map (RegionSieve.sieve 12 [0]) sample_image).
Proof.
  exact (final_class_map_domain _ (RegionSieveFacts.sieve_values 12 [0]) 3 _).
Defined.

(** ** Runs of the [try] block *)

Section Runs.
Context (env : environment).

Lemma run_calls_log cs : forall w, log (snd (run_calls env cs w)) = log w.
Proof.
  induction cs as [|c cs IH]; intros w; simpl; [reflexivity|].
  destruct (pci_ok env c); simpl; [|reflexivity].
  rewrite IH. by destruct c.
Qed.

(** The calls made are a prefix of the calls listed. *)
Lemma run_calls_prefix cs :
  forall w, exists k, calls (snd (run_calls env cs w)) = calls w ++ take k cs.
Proof.
  induction cs as [|c cs IH]; intros w; simpl.
  - exists 0%nat. by rewrite app_nil_r.
  - destruct (pci_ok env c).
    + destruct (IH (effect c (record_call c w))) as [k Hk].
      exists (S k). rewrite Hk. simpl.
      replace (calls (effect c (record_call c w))) with (calls w ++ [c])
        by (by destruct c).
      by rewrite <- app_assoc.
    + exists 1%nat. simpl. by rewrite take_0.
Qed.

(** A block that ends without an exception made every call. *)
Lemma run_calls_done cs :
  forall w w', run_calls env cs w = (None, w') ->
    calls w' = calls w ++ cs /\ Forall (fun c => pci_ok env c = true) cs.
Proof.
  induction cs as [|c cs IH]; intros w w'; simpl.
  - intros [= <-]. by rewrite app_nil_r.
  - destruct (pci_ok env c) eqn:E; [|discriminate].
    intros H. apply IH in H as [Hc Hok]. split.
    + rewrite Hc. replace (calls (effect c (record_call c w))) with (calls w ++ [c])
        by (by destruct c).
      by rewrite <- app_assoc.
    + by constructor.
Qed.

(** A block that raises leaves every file where it was: nothing is removed. *)
Lemma run_calls_keeps_files cs :
  forall w p, is_Some (fs w !! p) -> is_Some (fs (snd (run_calls env cs w)) !! p).
Proof.
  induction cs as [|c cs IH]; intros w p Hp; simpl; [done|].
  destruct (pci_ok env c); simpl; [|done].
  apply IH. destruct c; simpl; try done;
    (destruct (decide (ifile = p)) as [->|]
     || destruct (decide (filo = p)) as [->|]);
    by simplify_map_eq.
Qed.

(** The files on disk after the whole pipeline ran. *)
Lemma run_pipeline_files a m p w w' :
  run_calls env (pipeline env a m p) w = (None, w') ->
  fs w' = <[outfile a := GeoTiff]> (<[tmpfile_name env := Pcidsk]> (fs w)).
Proof.
  unfold pipeline. simpl.
  repeat match goal with
  | |- context [pci_ok env ?c] => destruct (pci_ok env c); [|discriminate]
  end.
  by intros [= <-].
Qed.

End Runs.

(** ** Legend selection and the shape of a successful run *)

Section Selection.
Context (env : environment).

Lemma createPCT_spec season w :
  fst (createPCT env season w) = mkstemp env ".txt" /\
  fs (snd (createPCT env season w)) =
    <[mkstemp env ".txt" := Text (Legend.builtin season)]> (fs w) /\
  calls (snd (createPCT env season w)) = calls w.
Proof.
  unfold createPCT, Legend.builtin.
  destruct (String.eqb (lower season) "thaw"); [done|].
  by destruct (negb (String.eqb (lower season) "freeze")).
Qed.

Lemma select_legend_calls a w : calls (snd (select_legend env a w)) = calls w.
Proof.
  unfold select_legend.
  destruct (str_in (lower (inpct a)) _).
  - pose proof (createPCT_spec (inpct a) w) as (_ & _ & H).
    by destruct (createPCT env (inpct a) w).
  - destruct (String.eqb _ ".txt"); [|done].
    by destruct (negb (path_exists w (inpct a))).
Qed.

(** The legend file is either the one [createPCT] wrote or the caller's. *)
Lemma select_legend_inr a w p w1 :
  select_legend env a w = (inr p, w1) ->
  (str_in (lower (inpct a)) ["freeze"; "thaw"] = true /\ p = mkstemp env ".txt" /\
   fs w1 = <[mkstemp env ".txt" := Text (Legend.builtin (inpct a))]> (fs w)) \/
  (str_in (lower (inpct a)) ["freeze"; "thaw"] = false /\ p = inpct a /\ w1 = w).
Proof.
  unfold select_legend.
  destruct (str_in (lower (inpct a)) _).
  - pose proof (createPCT_spec (inpct a) w) as (H1 & H2 & _).
    destruct (createPCT env (inpct a) w) as [n w']. simpl in *.
    intros [= <- <-]. left. by subst.
  - destruct (String.eqb _ ".txt"); [|discriminate].
    destruct (negb (path_exists w (inpct a))); [discriminate|].
    intros [= <- <-]. by right.
Qed.

Lemma shapefile_segment_calls a w :
  calls (snd (shapefile_segment a w)) = calls w /\
  fs (snd (shapefile_segment a w)) = fs w.
Proof.
  unfold shapefile_segment.
  destruct (String.eqb _ ".shp"); [|done].
  by destruct (negb (inmasks a =? 1)).
Qed.

(** [process] returns [True] only after the whole [try] block ran. *)
Lemma process_true a m w :
  fst (process env a m w) = PyBool true ->
  exists p w1 w2,
    select_legend env a w = (inr p, w1) /\
    path_exists w1 (outfile a) = false /\
    run_calls env (pipeline env a m p) w1 = (None, w2) /\
    snd (process env a m w) =
      cleanup env a p (logger INFO "Icemap produced successfully" w2).
Proof.
  unfold process.
  destruct (select_legend env a w) as [[r|p] w1] eqn:Hs.
  - unfold select_legend in Hs.
    destruct (str_in (lower (inpct a)) _).
    + by destruct (createPCT env (inpct a) w).
    + destruct (String.eqb _ ".txt").
      * destruct (negb (path_exists w (inpct a))); [|done].
        injection Hs as <- <-. discriminate.
      * injection Hs as <- <-. discriminate.
  - destruct (path_exists w1 (outfile a)) eqn:Ho; [discriminate|].
    destruct (run_calls env (pipeline env a m p) w1) as [[c|] w2] eqn:Hr; [discriminate|].
    intros _. by exists p, w1, w2.
Qed.

Lemma icemapr_true a w :
  fst (icemapr env a w) = PyBool true ->
  first_missing w [(infile a, "Input image file"); (inmask a, "Input mask")] = None /\
  icemapr env a w =
    process env a (fst (shapefile_segment a w)) (snd (shapefile_segment a w)).
Proof.
  unfold icemapr.
  destruct (first_missing w _) as [[f k]|]; [discriminate|].
  by destruct (shapefile_segment a w).
Qed.

Lemma cleanup_calls a p w : calls (cleanup env a p w) = calls w.
Proof.
  unfold cleanup, os_remove.
  repeat case_match; simplify_eq; done.
Qed.

End Selection.

(** ** The three clusterings *)

Lemma clusterer_calls_of_pipeline env a m p :
  List.filter is_fuzclus (pipeline env a m p) = clusterer_calls env.
Proof. reflexivity. Qed.

Lemma sieve_calls_of_pipeline env a m p :
  List.filter is_sieve (pipeline env a m p) =
  [ Sieve (tmpfile_name env) [1%nat] [2%nat] [12] [0] [4];
    Sieve (tmpfile_name env) [5%nat] [6%nat] [12] [0] [4] ].
Proof. reflexivity. Qed.

Lemma working_file_wiring env a m p :
  let f := working_file (pipeline env a m p) in
  chan_at f 7 = sar a /\
  seg_at f 2 = river_mask a m /\
  chan_at f 1 = coarse_map a m /\
  chan_at f 2 = sieved_coarse_map a m /\
  seg_at f 3 = class_submask a m 1 /\
  seg_at f 4 = class_submask a m 7 /\
  chan_at f 3 = fine_map_A a m /\
  chan_at f 4 = fine_map_B a m.
Proof. repeat split. Qed.

(** C6: a run that succeeds made exactly the calls of the pipeline, three of
    them to the fuzzy clusterer, each with at most 20 iterations and movement
    threshold 0.01: k = 7 on one texture band under the river mask (the
    coarse map), k = 20 on the three texture bands under the class-1 submask
    (fine map A), k = 8 on the Kuan-filtered, median-smoothed amplitude under
    the class-7 submask (fine map B); both submasks are thresholds of the
    sieved coarse map. *)
Theorem clusterer_invoked_three_times env a w :
  fst (icemapr env a w) = PyBool true ->
  let m := fst (shapefile_segment a w) in
  exists p,
    calls (snd (icemapr env a w)) = calls w ++ pipeline env a m p /\
    List.filter is_fuzclus (pipeline env a m p) = clusterer_calls env /\
    let f := working_file (pipeline env a m p) in
    chan_at f 1 = coarse_map a m /\
    chan_at f 3 = fine_map_A a m /\
    chan_at f 4 = fine_map_B a m.
Proof.
  intros Ht m. destruct (icemapr_true env a w Ht) as [_ He].
  rewrite He in Ht |- *.
  destruct (process_true env a m _ Ht) as (p & w1 & w2 & Hs & _ & Hr & Hc).
  exists p. fold m. rewrite Hc, cleanup_calls. simpl.
  apply run_calls_done in Hr as [-> _].
  pose proof (select_legend_calls env a (snd (shapefile_segment a w))) as Hl.
  rewrite Hs in Hl. simpl in Hl. rewrite Hl.
  destruct (shapefile_segment_calls a w) as [-> _].
  repeat split.
Qed.

Lemma clusterer_invoked_three_times_witness :
  fst (icemapr env_ok (run_args 1 "thaw") disk) = PyBool true /\
  exists p,
    calls (snd (icemapr env_ok (run_args 1 "thaw") disk)) =
      calls disk ++ pipeline env_ok (run_args 1 "thaw") 1 p /\
    List.filter is_fuzclus (pipeline env_ok (run_args 1 "thaw") 1 p) = clusterer_calls env_ok /\
    let f := working_file (pipeline env_ok (run_args 1 "thaw") 1 p) in
    chan_at f 1 = coarse_map (run_args 1 "thaw") 1 /\
    chan_at f 3 = fine_map_A (run_args 1 "thaw") 1 /\
    chan_at f 4 = fine_map_B (run_args 1 "thaw") 1.
Proof.
  split; [by vm_compute|].
  apply (clusterer_invoked_three_times env_ok (run_args 1 "thaw") disk). by vm_compute.
Defined.

(** ** Scratch files *)

Lemma path_exists_true w p : path_exists w p = true <-> is_Some (fs w !! p).
Proof. unfold path_exists. apply bool_decide_eq_true. Qed.

Lemma path_exists_false w p : path_exists w p = false <-> fs w !! p = None.
Proof.
  unfold path_exists. rewrite bool_decide_eq_false. by rewrite eq_None_not_Some.
Qed.

Lemma str_in_builtin x :
  str_in x ["freeze"; "thaw"] = true -> x = "freeze" \/ x = "thaw".
Proof.
  unfold str_in. simpl. rewrite !orb_true_iff, !String.eqb_eq.
  intros [H|[H|H]]; auto; discriminate.
Qed.

Lemma os_remove_gone env p w w' : os_remove env p w = Some w' -> fs w' !! p = None.
Proof.
  unfold os_remove. destruct (_ && _); [|discriminate].
  intros [= <-]. simpl. apply lookup_delete_eq.
Qed.

Lemma os_remove_other env p q w w' :
  os_remove env p w = Some w' -> fs w !! q = None -> fs w' !! q = None.
Proof.
  unfold os_remove. destruct (_ && _); [|discriminate].
  intros [= <-] H. simpl. destruct (decide (p = q)) as [->|Hne].
  - apply lookup_delete_eq.
  - by rewrite lookup_delete_ne.
Qed.

Lemma os_remove_none env p w :
  remove_ok env p = true -> os_remove env p w = None -> fs w !! p = None.
Proof.
  unfold os_remove. intros ->. simpl.
  destruct (path_exists w p) eqn:E; [discriminate|].
  intros _. by apply path_exists_false.
Qed.

(** What [cleanup] leaves, when [os.remove] does not raise on its own. *)
Lemma cleanup_removes env a p w :
  remove_ok env (tmpfile_name env) = true ->
  remove_ok env p = true ->
  is_Some (fs w !! p) ->
  fs (cleanup env a p w) !! tmpfile_name env = None /\
  (str_in (inpct a) ["freeze"; "thaw"] = true -> fs (cleanup env a p w) !! p = None).
Proof.
  intros Ht Hp Hex. unfold cleanup.
  destruct (str_in (inpct a) _) eqn:Hin.
  - destruct (os_remove env p w) as [w1|] eqn:H1.
    + pose proof (os_remove_gone _ _ _ _ H1) as Hg.
      destruct (os_remove env (tmpfile_name env) w1) as [w2|] eqn:H2; simpl.
      * split; [by eapply os_remove_gone|]. intros _. by eapply os_remove_other.
      * split; [by eapply os_remove_none|done].
    + apply os_remove_none in H1; [|done]. rewrite H1 in Hex. by destruct Hex.
  - destruct (os_remove env (tmpfile_name env) w) as [w2|] eqn:H2; simpl.
    + split; [by eapply os_remove_gone|discriminate].
    + split; [by eapply os_remove_none|discriminate].
Qed.

(** After a run that returns [True] the scratch files are gone. *)
Lemma cleanup_after_success env a w :
  fst (icemapr env a w) = PyBool true ->
  remove_ok env (tmpfile_name env) = true ->
  remove_ok env (mkstemp env ".txt") = true ->
  fs (snd (icemapr env a w)) !! tmpfile_name env = None /\
  (str_in (inpct a) ["freeze"; "thaw"] = true ->
   fs (snd (icemapr env a w)) !! mkstemp env ".txt" = None).
Proof.
  intros Ht Hrt Hrp. destruct (icemapr_true env a w Ht) as [_ He].
  rewrite He in Ht |- *.
  destruct (process_true env a _ _ Ht) as (p & w1 & w2 & Hs & _ & Hr & ->).
  apply run_pipeline_files in Hr.
  destruct (str_in (inpct a) ["freeze"; "thaw"]) eqn:Hin.
  - assert (Hlow : str_in (lower (inpct a)) ["freeze"; "thaw"] = true)
      by (destruct (str_in_builtin _ Hin) as [-> | ->]; reflexivity).
    apply select_legend_inr in Hs as [(_ & -> & Hf)|(Hc & _)]; [|congruence].
    destruct (cleanup_removes env a (mkstemp env ".txt")
                (logger INFO "Icemap produced successfully" w2)) as [H1 H2]; try done.
    { simpl. rewrite Hr, Hf.
      destruct (decide (outfile a = mkstemp env ".txt")) as [->|]; simplify_map_eq; [done|].
      destruct (decide (tmpfile_name env = mkstemp env ".txt")) as [->|]; by simplify_map_eq. }
    split; [exact H1|]. intros _. apply H2. exact Hin.
  - split; [|discriminate].
    unfold cleanup. rewrite Hin.
    destruct (os_remove env (tmpfile_name env) _) as [w3|] eqn:H3; simpl.
    + exact (os_remove_gone _ _ _ _ H3).
    + exact (os_remove_none _ _ _ Hrt H3).
Qed.


(** A [try] block that raises after [cim] leaves the working file on disk. *)
Lemma failed_block_keeps_working_file env a m p w c w' :
  run_calls env (pipeline env a m p) w = (Some c, w') ->
  calls w = [] ->
  In (BasicWriter (tmpfile_name env)) (calls w') ->
  fs w' !! tmpfile_name env = Some Pcidsk.
Proof.
  unfold pipeline. simpl. intros Hrun Hcalls.
  repeat match type of Hrun with
  | (if pci_ok env ?c then _ else _) = _ =>
      destruct (pci_ok env c);
      [| injection Hrun as _ Hw; subst w'; cbn [fs calls log record_call effect write_file]; rewrite Hcalls;
         cbn [app]; intros Hin;
         first [ apply lookup_insert_eq
               | repeat (destruct Hin as [Hin|Hin]; [discriminate Hin|]); destruct Hin ] ]
  end.
  discriminate Hrun.
Qed.

(** A run that fails removes nothing; past [cim], the working file stays. *)
Lemma failed_run_keeps_working_file env a w :
  calls w = [] ->
  fst (icemapr env a w) = PyBool false ->
  In (BasicWriter (tmpfile_name env)) (calls (snd (icemapr env a w))) ->
  fs (snd (icemapr env a w)) !! tmpfile_name env = Some Pcidsk.
Proof.
  intros Hcalls. unfold icemapr.
  destruct (first_missing w _) as [[f k]|]; [simpl; by rewrite Hcalls|].
  destruct (shapefile_segment_calls a w) as [Hc _].
  destruct (shapefile_segment a w) as [m w0]. simpl in Hc. rewrite Hcalls in Hc.
  unfold process.
  pose proof (select_legend_calls env a w0) as Hl. rewrite Hc in Hl.
  destruct (select_legend env a w0) as [[r|p] w1]; simpl in Hl; [simpl; by rewrite Hl|].
  destruct (path_exists w1 (outfile a)); [simpl; by rewrite Hl|].
  destruct (run_calls env (pipeline env a m p) w1) as [[c|] w2] eqn:Hr; [|discriminate].
  simpl. intros _ Hin. by eapply failed_block_keeps_working_file.
Qed.

(** C4, by outcome: after a run that returns [True], and when [os.remove]
    itself does not raise, the temporary working file is gone, and so is the
    legend file [createPCT] wrote when the legend was given as exactly
    [freeze] or [thaw]; after a run that returns [False] once [cim] has made
    the working file, that file is still on disk. *)
Theorem scratch_after_run env a w :
  calls w = [] ->
  remove_ok env (tmpfile_name env) = true ->
  remove_ok env (mkstemp env ".txt") = true ->
  (fst (icemapr env a w) = PyBool true ->
   fs (snd (icemapr env a w)) !! tmpfile_name env = None /\
   (str_in (inpct a) ["freeze"; "thaw"] = true ->
    fs (snd (icemapr env a w)) !! mkstemp env ".txt" = None)) /\
  (fst (icemapr env a w) = PyBool false ->
   In (BasicWriter (tmpfile_name env)) (calls (snd (icemapr env a w))) ->
   fs (snd (icemapr env a w)) !! tmpfile_name env = Some Pcidsk).
Proof.
  intros Hcalls Hrt Hrp. split.
  - intros Ht. by apply cleanup_after_success.
  - intros Hf Hin. by apply failed_run_keeps_working_file.
Qed.

Lemma scratch_after_run_witness :
  (fst (icemapr env_ok (run_args 1 "thaw") disk) = PyBool true /\
   fs (snd (icemapr env_ok (run_args 1 "thaw") disk)) !! tmpfile_name env_ok = None /\
   fs (snd (icemapr env_ok (run_args 1 "thaw") disk)) !! mkstemp env_ok ".txt" = None) /\
  (fst (icemapr env_tex_raises (run_args 1 "thaw") disk) = PyBool false /\
   fs (snd (icemapr env_tex_raises (run_args 1 "thaw") disk)) !! tmpfile_name env_tex_raises
     = Some Pcidsk).
Proof.
  split.
  - assert (Ht : fst (icemapr env_ok (run_args 1 "thaw") disk) = PyBool true)
      by (by vm_compute).
    destruct (scratch_after_run env_ok (run_args 1 "thaw") disk) as [H _];
      [by vm_compute | by vm_compute | by vm_compute |].
    destruct (H Ht) as [H1 H2]. split; [exact Ht|]. split; [exact H1|].
    apply H2. by vm_compute.
  - assert (Hf : fst (icemapr env_tex_raises (run_args 1 "thaw") disk) = PyBool false)
      by (by vm_compute).
    destruct (scratch_after_run env_tex_raises (run_args 1 "thaw") disk) as [_ H];
      [by vm_compute | by vm_compute | by vm_compute |].
    split; [exact Hf|]. apply (H Hf). vm_compute. tauto.
Defined.

(** C4 does not extend to runs that fail: when the texture analysis raises,
    the run returns [False] and both scratch files, absent before the run,
    are still there. *)
Lemma scratch_left_after_failure :
  fs disk !! tmpfile_name env_tex_raises = None /\
  fs disk !! mkstemp env_tex_raises ".txt" = None /\
  fst (icemapr env_tex_raises (run_args 1 "thaw") disk) = PyBool false /\
  fs (snd (icemapr env_tex_raises (run_args 1 "thaw") disk)) !! tmpfile_name env_tex_raises
    = Some Pcidsk /\
  fs (snd (icemapr env_tex_raises (run_args 1 "thaw") disk)) !! mkstemp env_tex_raises ".txt"
    = Some (Text thaw_pct) /\
  ~ scratch_discarded env_tex_raises (run_args 1 "thaw")
      (snd (icemapr env_tex_raises (run_args 1 "thaw") disk)).
Proof.
  repeat split; try by vm_compute.
  intros [H _]. by vm_compute in H.
Qed.

(** ** Legend selectors that are neither a name nor a text file *)

Lemma substring_all s : String.substring 0 (String.length s) s = s.
Proof. induction s as [|c s IH]; simpl; [reflexivity|]. by rewrite IH. Qed.

Lemma substring_tail n : forall s,
  exists pre, s = (pre ++ String.substring n (String.length s - n) s)%string.
Proof.
  induction n as [|n IH]; intros s.
  - exists ""%string. simpl. by rewrite Nat.sub_0_r, substring_all.
  - destruct s as [|c s]; simpl.
    + by exists ""%string.
    + destruct (IH s) as [pre Hpre]. exists (String c pre). simpl.
      exact (f_equal (String c) Hpre).
Qed.

Lemma append_empty s : s = (s ++ "")%string.
Proof. induction s as [|c s IH]; [reflexivity|]. exact (f_equal (String c) IH). Qed.

(** The extension [splitext] returns is the end of the path. *)
Lemma splitext_ends_in p : ends_in (snd (splitext p)) p.
Proof.
  unfold splitext, _splitext, drop_str.
  destruct (_ <? _); [|exists p; apply append_empty].
  destruct (all_char _ _); simpl; [exists p; apply append_empty|].
  apply substring_tail.
Qed.

Section InvalidLegend.
Context (env : environment).

Lemma select_legend_invalid a w :
  str_in (lower (inpct a)) ["freeze"; "thaw"] = false ->
  ~ ends_in ".txt" (inpct a) ->
  select_legend env a w =
    (inl (PyInt 1), logger ERROR "Invalid legend file format! Need to be a text file." w).
Proof.
  intros Hn Ht. unfold select_legend. rewrite Hn.
  destruct (String.eqb_spec (snd (splitext (inpct a))) ".txt") as [E|_]; [|reflexivity].
  exfalso. apply Ht. rewrite <- E. apply splitext_ends_in.
Qed.

(** With both input files in place, such a selector makes [icemapr] log
    the error and return 1, before any call into PCI; the files on disk
    are as they were. *)
Lemma invalid_legend_returns_one a w :
  first_missing w [(infile a, "Input image file"); (inmask a, "Input mask")] = None ->
  str_in (lower (inpct a)) ["freeze"; "thaw"] = false ->
  ~ ends_in ".txt" (inpct a) ->
  fst (icemapr env a w) = PyInt 1 /\
  calls (snd (icemapr env a w)) = calls w /\
  fs (snd (icemapr env a w)) = fs w /\
  last (log (snd (icemapr env a w))) =
    Some {| lvl := ERROR; msg := "Invalid legend file format! Need to be a text file." |}.
Proof.
  intros Hm Hn Ht. unfold icemapr. rewrite Hm.
  destruct (shapefile_segment_calls a w) as [Hc Hf].
  destruct (shapefile_segment a w) as [m w1]. simpl in Hc, Hf.
  unfold process. rewrite (select_legend_invalid a w1 Hn Ht). simpl.
  rewrite last_snoc. auto.
Qed.

(** X27: for a [--pctfile] that is neither one of the two legend names
    nor a path ending in [.txt], both inputs being in place, [main] takes
    the 1 that [icemapr] returns for success and exits with 0. *)
Lemma invalid_legend_exit_zero n p w :
  parse_ok n = true ->
  ns_pctfile n = Some p ->
  p <> ""%string ->
  first_missing w [(ns_infile n, "Input image file"); (ns_inmask n, "Input mask")] = None ->
  str_in (lower p) ["freeze"; "thaw"] = false ->
  ~ ends_in ".txt" p ->
  fst (main env n w) = 0.
Proof.
  intros Hp Hf Hne Hm Hn Ht. unfold main. rewrite Hp, Hf. simpl.
  destruct (String.eqb_spec p "") as [->|_]; [done|].
  match goal with
  | |- context [icemapr env ?a ?w0] =>
      destruct (invalid_legend_returns_one a w0) as (H1 & _); auto;
      destruct (icemapr env a w0) as [r w']
  end.
  simpl in H1. by subst r.
Qed.

End InvalidLegend.

(** C3: a legend selector that is neither a built-in name nor a path ending
    in [.txt] is to make the run fail, [main] exiting with a nonzero code.
    On [scene.pix 1 river.shp 1 freeze icemap.tif run.log -p legend.pct],
    with both inputs in place, [icemapr] logs the error and returns 1 without
    calling PCI, and [main], which tests [not icemapr(...)], exits with 0
    after logging that it closed successfully. *)
Theorem invalid_legend_reported_as_success :
  fst (icemapr env_ok (run_args 1 "legend.pct") disk) = PyInt 1 /\
  calls (snd (icemapr env_ok (run_args 1 "legend.pct") disk)) = [] /\
  fst (main env_ok cli_pctfile disk) = 0 /\
  last (log (snd (main env_ok cli_pctfile disk))) =
    Some {| lvl := INFO; msg := "Icemapr successfully closed" |}.
Proof. by vm_compute. Qed.

(** ** A file already at the output path *)

Section ExistingOutput.
Context (env : environment).

Lemma select_legend_inl a w r w1 :
  select_legend env a w = (inl r, w1) ->
  fs w1 = fs w /\ calls w1 = calls w /\ r <> PyBool true.
Proof.
  unfold select_legend.
  destruct (str_in (lower (inpct a)) _).
  - by destruct (createPCT env (inpct a) w).
  - destruct (String.eqb _ ".txt").
    + destruct (negb (path_exists w (inpct a))); [|discriminate].
      by intros [= <- <-].
    + by intros [= <- <-].
Qed.

(** Whatever else is wrong, nothing is computed and the file stays as it
    is; [mkstemp] is taken to return a name that is not in use. *)
Lemma existing_output_untouched a w :
  is_Some (fs w !! outfile a) ->
  fs w !! mkstemp env ".txt" = None ->
  calls (snd (icemapr env a w)) = calls w /\
  fs (snd (icemapr env a w)) !! outfile a = fs w !! outfile a /\
  fst (icemapr env a w) <> PyBool true.
Proof.
  intros Ho Hfresh. unfold icemapr.
  destruct (first_missing w _) as [[f k]|]; [done|].
  destruct (shapefile_segment_calls a w) as [Hc Hf].
  destruct (shapefile_segment a w) as [m w0]. simpl in Hc, Hf.
  unfold process.
  destruct (select_legend env a w0) as [[r|p] w1] eqn:Hs.
  - apply select_legend_inl in Hs as (Hf1 & Hc1 & Hr). simpl.
    by rewrite Hc1, Hf1, Hc, Hf.
  - pose proof (select_legend_calls env a w0) as Hl. rewrite Hs in Hl. simpl in Hl.
    assert (Hout : fs w1 !! outfile a = fs w !! outfile a).
    { apply select_legend_inr in Hs as [(_ & _ & ->)|(_ & _ & ->)]; [|by rewrite Hf].
      rewrite Hf. apply lookup_insert_ne. intros E. rewrite <- E, Hfresh in Ho.
      by destruct Ho. }
    assert (He : path_exists w1 (outfile a) = true)
      by (apply path_exists_true; by rewrite Hout).
    rewrite He. simpl. by rewrite Hl, Hc.
Qed.

(** With the inputs in place and a legend that is accepted, the answer is
    [False]. *)
Lemma existing_output_refused a w p w1 :
  first_missing w [(infile a, "Input image file"); (inmask a, "Input mask")] = None ->
  select_legend env a (snd (shapefile_segment a w)) = (inr p, w1) ->
  is_Some (fs w !! outfile a) ->
  fs w !! mkstemp env ".txt" = None ->
  fst (icemapr env a w) = PyBool false.
Proof.
  intros Hm Hs Ho Hfresh. unfold icemapr. rewrite Hm.
  destruct (shapefile_segment_calls a w) as [_ Hf].
  destruct (shapefile_segment a w) as [m w0]. simpl in *.
  unfold process. rewrite Hs.
  assert (He : path_exists w1 (outfile a) = true).
  { apply path_exists_true.
    apply select_legend_inr in Hs as [(_ & _ & ->)|(_ & _ & ->)]; [|by rewrite Hf].
    rewrite Hf, lookup_insert_ne; [done|].
    intros E. rewrite <- E, Hfresh in Ho. by destruct Ho. }
  by rewrite He.
Qed.

End ExistingOutput.

(** C5: with a file already at the output path the run is to be refused
    with a failure result.  On the same command line and a file at
    [icemap.tif], nothing is computed and the file is untouched, but
    [icemapr] returns 1, which is true in Python: the legend is looked at
    before the output path, and [main] exits with 0. *)
Theorem existing_output_invalid_legend :
  fs disk_with_output !! "icemap.tif" = Some (UserData 3) /\
  fst (icemapr env_ok (run_args 1 "legend.pct") disk_with_output) = PyInt 1 /\
  truthy (fst (icemapr env_ok (run_args 1 "legend.pct") disk_with_output)) = true /\
  calls (snd (icemapr env_ok (run_args 1 "legend.pct") disk_with_output)) = [] /\
  fs (snd (icemapr env_ok (run_args 1 "legend.pct") disk_with_output)) = fs disk_with_output /\
  fst (main env_ok cli_pctfile disk_with_output) = 0.
Proof. repeat split; by vm_compute. Qed.

(** ** The log is only ever appended to *)

Section LogPrefix.
Context (env : environment) (l : list log_record).

Lemma path_exists_prefix w p : path_exists (prefix_log l w) p = path_exists w p.
Proof. reflexivity. Qed.

Lemma logger_prefix lv m w : logger lv m (prefix_log l w) = prefix_log l (logger lv m w).
Proof. unfold logger, prefix_log. simpl. by rewrite app_assoc. Qed.

Lemma os_remove_prefix p w :
  os_remove env p (prefix_log l w) = prefix_log l <$> os_remove env p w.
Proof. unfold os_remove. rewrite path_exists_prefix. by destruct (_ && _). Qed.

Lemma createPCT_prefix season w :
  createPCT env season (prefix_log l w) =
  (fst (createPCT env season w), prefix_log l (snd (createPCT env season w))).
Proof.
  unfold createPCT.
  destruct (String.eqb (lower season) "thaw"); [reflexivity|].
  destruct (negb _); [|reflexivity].
  by rewrite logger_prefix.
Qed.

Lemma select_legend_prefix a w :
  select_legend env a (prefix_log l w) =
  (fst (select_legend env a w), prefix_log l (snd (select_legend env a w))).
Proof.
  unfold select_legend.
  destruct (str_in (lower (inpct a)) _).
  - rewrite createPCT_prefix. by destruct (createPCT env (inpct a) w).
  - destruct (String.eqb _ ".txt"); [|by rewrite logger_prefix].
    rewrite path_exists_prefix.
    destruct (negb (path_exists w (inpct a))); [by rewrite logger_prefix|reflexivity].
Qed.

Lemma run_calls_prefix_log cs : forall w,
  run_calls env cs (prefix_log l w) =
  (fst (run_calls env cs w), prefix_log l (snd (run_calls env cs w))).
Proof.
  induction cs as [|c cs IH]; intros w; simpl; [reflexivity|].
  destruct (pci_ok env c); [|reflexivity].
  replace (effect c (record_call c (prefix_log l w)))
    with (prefix_log l (effect c (record_call c w))) by (by destruct c).
  apply IH.
Qed.

Lemma cleanup_prefix a p w :
  cleanup env a p (prefix_log l w) = prefix_log l (cleanup env a p w).
Proof.
  unfold cleanup.
  destruct (str_in (inpct a) _).
  - rewrite os_remove_prefix.
    destruct (os_remove env p w) as [w1|]; simpl; [|by rewrite logger_prefix].
    rewrite os_remove_prefix.
    destruct (os_remove env (tmpfile_name env) w1); simpl; by rewrite logger_prefix.
  - rewrite os_remove_prefix.
    destruct (os_remove env (tmpfile_name env) w); simpl; by rewrite logger_prefix.
Qed.

Lemma process_prefix a m w :
  process env a m (prefix_log l w) =
  (fst (process env a m w), prefix_log l (snd (process env a m w))).
Proof.
  unfold process. rewrite select_legend_prefix.
  destruct (select_legend env a w) as [[r|p] w1]; cbn [fst snd]; [reflexivity|].
  rewrite path_exists_prefix.
  destruct (path_exists w1 (outfile a)); [by rewrite logger_prefix|].
  rewrite run_calls_prefix_log.
  destruct (run_calls env (pipeline env a m p) w1) as [[c|] w2]; cbn [fst snd].
  - by rewrite logger_prefix.
  - by rewrite logger_prefix, cleanup_prefix.
Qed.

End LogPrefix.

(** ** Shapefile masks *)

Lemma first_missing_inputs w a :
  first_missing w [(infile a, "Input image file"); (inmask a, "Input mask")] =
  if path_exists w (infile a) then
    if path_exists w (inmask a) then None else Some (inmask a, "Input mask")
  else Some (infile a, "Input image file").
Proof. simpl. by repeat case_match. Qed.

(** Every call returning, the [try] block runs to its end. *)
Lemma run_calls_all_ok env cs :
  (forall c, pci_ok env c = true) ->
  forall w, exists w', run_calls env cs w = (None, w').
Proof.
  intros Hok. induction cs as [|c cs IH]; intros w; simpl; [by eexists|].
  rewrite Hok. apply IH.
Qed.

(** Lines 122-425 return [True] when the legend is accepted, the output
    path is free and no PCI call raises; every call of the pipeline was
    then made. *)
Lemma process_succeeds env a m w :
  str_in (lower (inpct a)) ["freeze"; "thaw"] = true \/
    (snd (splitext (inpct a)) = ".txt"%string /\ path_exists w (inpct a) = true) ->
  fs w !! outfile a = None ->
  outfile a <> mkstemp env ".txt" ->
  (forall c, pci_ok env c = true) ->
  fst (process env a m w) = PyBool true /\
  exists p, calls (snd (process env a m w)) = calls w ++ pipeline env a m p.
Proof.
  intros Hleg Hout Hne Hok. unfold process.
  pose proof (select_legend_calls env a w) as Hl.
  destruct (select_legend env a w) as [[r|p] w1] eqn:Hs; cbn [fst snd] in Hl.
  { exfalso. unfold select_legend in Hs.
    destruct (str_in (lower (inpct a)) _); [by destruct (createPCT env (inpct a) w)|].
    destruct Hleg as [?|[He Hp]]; [done|].
    rewrite He, Hp in Hs. simpl in Hs. discriminate. }
  assert (Hfree : path_exists w1 (outfile a) = false).
  { apply path_exists_false.
    apply select_legend_inr in Hs as [(_ & _ & ->)|(_ & _ & ->)]; [|done].
    by rewrite lookup_insert_ne. }
  rewrite Hfree.
  destruct (run_calls_all_ok env (pipeline env a m p) Hok w1) as [w2 Hr].
  rewrite Hr. cbn [fst snd]. split; [done|].
  exists p. rewrite cleanup_calls. cbn [logger calls].
  apply run_calls_done in Hr as [-> _]. by rewrite Hl.
Qed.

(** The PCI calls of lines 122-425 are the first calls of the pipeline for
    the segment number they are given. *)
Lemma process_calls_prefix env a m w :
  exists k p,
    calls (snd (process env a m w)) = calls w ++ take k (pipeline env a m p) /\
    (fst (process env a m w) = PyBool true -> k = 23%nat).
Proof.
  unfold process.
  pose proof (select_legend_calls env a w) as Hl.
  destruct (select_legend env a w) as [[r|p] w1] eqn:Hs; cbn [fst snd] in Hl |- *.
  { exists 0%nat, ""%string. rewrite Hl. simpl. rewrite app_nil_r. split; [done|].
    intros ->. unfold select_legend in Hs.
    destruct (str_in (lower (inpct a)) _); [by destruct (createPCT env (inpct a) w)|].
    destruct (String.eqb _ ".txt"); [|discriminate].
    by destruct (negb (path_exists w (inpct a))). }
  destruct (path_exists w1 (outfile a)).
  { exists 0%nat, p. cbn [fst snd logger calls]. rewrite Hl. simpl.
    by rewrite app_nil_r. }
  destruct (run_calls env (pipeline env a m p) w1) as [[c|] w2] eqn:Hr; cbn [fst snd].
  - destruct (run_calls_prefix env (pipeline env a m p) w1) as [k Hk].
    rewrite Hr in Hk. cbn [snd] in Hk.
    exists k, p. cbn [logger calls]. rewrite Hk, Hl. split; [done|discriminate].
  - exists 23%nat, p. rewrite cleanup_calls. cbn [logger calls].
    apply run_calls_done in Hr as [-> _]. by rewrite Hl.
Qed.


(** With both inputs in place, the run on a [.shp] mask with a segment
    number other than 1 is the warning followed by lines 122-425 on segment
    1, and it ends as the run given segment 1 does. *)
Lemma shapefile_run_as_segment_one env a w :
  snd (splitext (inmask a)) = ".shp"%string ->
  inmasks a <> 1 ->
  inputs_present w a = true ->
  let r := icemapr env a w in
  let r1 := icemapr env (with_inmasks a 1) w in
  r = process env a 1 (logger WARNING (msg shapefile_warning) w) /\
  fst r = fst r1 /\
  fs (snd r) = fs (snd r1) /\
  calls (snd r) = calls (snd r1) /\
  exists rest,
    log (snd r1) = log w ++ rest /\ log (snd r) = log w ++ shapefile_warning :: rest.
Proof.
  intros Hext Hseg Hin r r1.
  assert (Hm : first_missing w [(infile a, "Input image file"); (inmask a, "Input mask")]
               = None).
  { rewrite first_missing_inputs. unfold inputs_present in Hin.
    apply andb_true_iff in Hin as [-> ->]. done. }
  assert (Hr : r = process env a 1 (logger WARNING (msg shapefile_warning) w)).
  { subst r. unfold icemapr. rewrite Hm. unfold shapefile_segment. rewrite Hext. simpl.
    destruct (Z.eqb_spec (inmasks a) 1) as [E|_]; [done|]. reflexivity. }
  assert (Hr1 : r1 = process env a 1 w).
  { subst r1. unfold icemapr, shapefile_segment.
    change (infile (with_inmasks a 1)) with (infile a).
    change (inmask (with_inmasks a 1)) with (inmask a).
    change (inmasks (with_inmasks a 1)) with 1.
    rewrite Hm, Hext. reflexivity. }
  split; [exact Hr|].
  set (w0 := {| fs := fs w; log := []; calls := calls w |}).
  assert (Hw : w = prefix_log (log w) w0)
    by (destruct w; unfold prefix_log; simpl; by rewrite app_nil_r).
  assert (Hw' : logger WARNING (msg shapefile_warning) w =
                prefix_log (log w ++ [shapefile_warning]) w0)
    by (unfold logger, prefix_log; simpl; by rewrite app_nil_r).
  pose proof (process_prefix env (log w ++ [shapefile_warning]) a 1 w0) as P.
  pose proof (process_prefix env (log w) a 1 w0) as P1.
  rewrite <- Hw' in P. rewrite <- Hw in P1.
  rewrite Hr, Hr1, P, P1. cbn [fst snd prefix_log fs calls log].
  repeat split. exists (log (snd (process env a 1 w0))). split; [reflexivity|].
  by rewrite <- app_assoc.
Qed.

(** C10, amended: for a mask whose extension is [.shp] and a segment number
    other than 1, once both input files have been found, the segment number
    is no cause of failure: [icemapr] hands the corrective warning to the
    logger and goes on with segment 1.  The run ends as the run given
    segment 1 does (same result, same files, same PCI calls, the same log
    but for the warning); the PCI calls it makes are the first calls of the
    pipeline for segment 1, in which [poly2bit] is given segment 1; and it
    returns [True], [poly2bit] having been called on segment 1, when the
    legend is accepted, the output path is free and no PCI call raises. *)
Theorem shapefile_segment_forced_to_one env a w :
  snd (splitext (inmask a)) = ".shp"%string ->
  inmasks a <> 1 ->
  inputs_present w a = true ->
  let r := icemapr env a w in
  let r1 := icemapr env (with_inmasks a 1) w in
  let poly2bit_1 := Poly2bit (inmask a) [1] (tmpfile_name env) "River mask" [] "" "" in
  (exists rest,
     log (snd r1) = log w ++ rest /\ log (snd r) = log w ++ shapefile_warning :: rest) /\
  fst r = fst r1 /\
  fs (snd r) = fs (snd r1) /\
  calls (snd r) = calls (snd r1) /\
  (exists k p,
     calls (snd r) = calls w ++ take k (pipeline env a 1 p) /\
     pipeline env a 1 p !! 5%nat = Some poly2bit_1 /\
     (fst r = PyBool true -> k = 23%nat)) /\
  ((str_in (lower (inpct a)) ["freeze"; "thaw"] = true \/
    (snd (splitext (inpct a)) = ".txt"%string /\ path_exists w (inpct a) = true)) ->
   fs w !! outfile a = None ->
   outfile a <> mkstemp env ".txt" ->
   (forall c, pci_ok env c = true) ->
   fst r = PyBool true /\ In poly2bit_1 (calls (snd r))).
Proof.
  intros Hext Hseg Hin r r1 poly2bit_1.
  destruct (shapefile_run_as_segment_one env a w Hext Hseg Hin)
    as (Hr & Hres & Hfs & Hcalls & Hlog).
  fold r r1 in Hr, Hres, Hfs, Hcalls, Hlog.
  split; [exact Hlog|]. split; [exact Hres|]. split; [exact Hfs|].
  split; [exact Hcalls|]. split.
  - destruct (process_calls_prefix env a 1 (logger WARNING (msg shapefile_warning) w))
      as (k & p & Hk & H23).
    exists k, p. rewrite Hr. cbn [logger calls] in Hk. done.
  - intros Hleg Hout Hne Hok.
    destruct (process_succeeds env a 1 (logger WARNING (msg shapefile_warning) w))
      as (Ht & p & Hc); try done.
    rewrite Hr. split; [exact Ht|].
    rewrite Hc. apply in_or_app. right.
    unfold pipeline, poly2bit_1. cbn [In]. do 5 right. by left.
Qed.

Lemma shapefile_segment_forced_to_one_witness :
  let a := run_args 3 "thaw" in
  let r := icemapr env_ok a disk in
  let r1 := icemapr env_ok (with_inmasks a 1) disk in
  let poly2bit_1 := Poly2bit (inmask a) [1] (tmpfile_name env_ok) "River mask" [] "" "" in
  (exists rest,
     log (snd r1) = log disk ++ rest /\
     log (snd r) = log disk ++ shapefile_warning :: rest) /\
  fst r = fst r1 /\
  fs (snd r) = fs (snd r1) /\
  calls (snd r) = calls (snd r1) /\
  (exists k p,
     calls (snd r) = calls disk ++ take k (pipeline env_ok a 1 p) /\
     pipeline env_ok a 1 p !! 5%nat = Some poly2bit_1 /\
     (fst r = PyBool true -> k = 23%nat)) /\
  fst r = PyBool true /\ In poly2bit_1 (calls (snd r)).
Proof.
  destruct (shapefile_segment_forced_to_one env_ok (run_args 3 "thaw") disk)
    as (H1 & H2 & H3 & H4 & H5 & H6); [by vm_compute..|].
  refine (conj H1 (conj H2 (conj H3 (conj H4 (conj H5 (H6 _ _ _ _)))))).
  - left. by vm_compute.
  - by vm_compute.
  - by vm_compute.
  - intros c. reflexivity.
Defined.

(** C10 as it was stated does not hold: a [.shp] mask with segment 3 and
    the image missing ends in [False] with the error for the image and no
    warning; and with both inputs in place but a file at the output path the
    warning is logged and the run still ends in [False]. *)
Lemma shapefile_segment_run_can_fail :
  let a := run_args 3 "thaw" in
  let no_image := {| fs := {[ "river.shp" := UserData 2 ]}; log := []; calls := [] |} in
  snd (splitext (inmask a)) = ".shp"%string /\
  inmasks a <> 1 /\
  icemapr env_ok a no_image =
    (PyBool false,
     logger ERROR "Input image file doesn't exists! Looked for scene.pix" no_image) /\
  ~ In shapefile_warning (log (snd (icemapr env_ok a no_image))) /\
  fst (icemapr env_ok a disk_with_output) = PyBool false /\
  In shapefile_warning (log (snd (icemapr env_ok a disk_with_output))) /\
  calls (snd (icemapr env_ok a disk_with_output)) = [].
Proof.
  repeat split; try (by vm_compute).
  - vm_compute. intros [H|[]]. discriminate H.
  - vm_compute. by left.
Qed.

(** ** The built-in legends *)

Lemma createPCT_writes env season w :
  fs (snd (createPCT env season w)) !! fst (createPCT env season w) =
  Some (Text (Legend.builtin season)).
Proof.
  destruct (createPCT_spec env season w) as (-> & -> & _). apply lookup_insert_eq.
Qed.

Lemma builtin_names :
  Legend.builtin "freeze" = freeze_pct /\ Legend.builtin "thaw" = thaw_pct /\
  Legend.builtin "FREEZE" = freeze_pct /\ Legend.builtin "Thaw" = thaw_pct.
Proof. repeat split. Qed.

(** C9, with seven ranges: each built-in legend is a table of 7 ranges with fixed
    colours, [freeze] over 0; 1-2; 3; 4-5; 6-7; 8-9; 10-255 and [thaw] over
    0; 1; 2; 3-4; 5-7; 8-9; 10-255; each expands to exactly 256 palette
    entries, the ranges laid end to end. *)
Theorem builtin_legends_seven_ranges :
  let R := Legend.Build_range in
  let freeze :=
    [ R 0 0 0 0 0; R 1 2 0 0 102; R 3 3 51 102 255; R 4 5 204 255 255;
      R 6 7 255 204 255; R 8 9 153 51 102; R 10 255 255 255 255 ] in
  let thaw :=
    [ R 0 0 0 0 0; R 1 1 0 0 153; R 2 2 51 102 255; R 3 4 204 204 255;
      R 5 7 207 109 215; R 8 9 142 0 142; R 10 255 255 255 255 ] in
  Legend.parse (Legend.builtin "freeze") = Some freeze /\
  Legend.parse (Legend.builtin "thaw") = Some thaw /\
  legend_with_entries 7 (Legend.builtin "freeze") /\
  legend_with_entries 7 (Legend.builtin "thaw") /\
  Legend.expand freeze = flat_map unroll freeze /\
  Legend.expand thaw = flat_map unroll thaw.
Proof.
  intros R freeze thaw.
  assert (Hf : Legend.parse (Legend.builtin "freeze") = Some freeze) by (by vm_compute).
  assert (Ht : Legend.parse (Legend.builtin "thaw") = Some thaw) by (by vm_compute).
  refine (conj Hf (conj Ht (conj _ (conj _ (conj _ _))))).
  - exists freeze. split; [exact Hf|]. split; [reflexivity|].
    unfold Legend.expand. by rewrite length_map, length_seq.
  - exists thaw. split; [exact Ht|]. split; [reflexivity|].
    unfold Legend.expand. by rewrite length_map, length_seq.
  - by vm_compute.
  - by vm_compute.
Qed.

(** C9 with ten ranges does not hold: neither legend is a table of 10
    ranges. *)
Lemma builtin_legends_not_ten_ranges :
  ~ legend_with_entries 10 (Legend.builtin "freeze") /\
  ~ legend_with_entries 10 (Legend.builtin "thaw").
Proof.
  split; intros (rs & Hp & Hl & _); vm_compute in Hp; injection Hp as <-; discriminate.
Qed.

(** ** The two sieve passes *)

(** A sieve that keeps the number of pixels keeps it in the file. *)
Lemma sieve_image_pixels sv dbic dboc im :
  (forall w r, length (sv w r) = length r) ->
  length (pixels (sieve_image sv dbic dboc im)) = length (pixels im).
Proof.
  intros Hlen. unfold sieve_image, store_channel, channel. simpl.
  rewrite length_zip_with, Hlen, length_map. lia.
Qed.

(** One pass over the labelling of the input can leave a small region: the
    centre of a ring takes the value of the ring while the ring, small
    itself, takes the value of the background. *)
Lemma single_pass_leaves_centre :
  let ring := [0; 0; 0; 0; 0;
               0; 2; 2; 2; 0;
               0; 2; 1; 2; 0;
               0; 2; 2; 2; 0;
               0; 0; 0; 0; 0] in
  let out := RegionSieve.sieve 12 [0] 5 ring in
  out !! 12%nat = Some 2 /\ RegionSieve.component 5 out 12 = [12%nat].
Proof. by vm_compute. Qed.

(** ** Sample runs *)

Lemma splitext_examples :
  splitext "data/river.shp" = ("data/river", ".shp")%string /\
  splitext "legend.TXT" = ("legend", ".TXT")%string /\
  splitext ".txt" = (".txt", "")%string /\
  splitext "run.d/legend" = ("run.d/legend", "")%string.
Proof. repeat split. Qed.

(** A run with the [thaw] legend: the output is written, the scratch files
    are gone, the inputs are as they were. *)
Lemma sample_run_succeeds :
  fst (icemapr env_ok (run_args 1 "thaw") disk) = PyBool true /\
  fs (snd (icemapr env_ok (run_args 1 "thaw") disk)) =
    <["icemap.tif" := GeoTiff]> (fs disk) /\
  length (calls (snd (icemapr env_ok (run_args 1 "thaw") disk))) = 23%nat.
Proof. repeat split; by vm_compute. Qed.

(** The legend name is accepted in any case but compared as given when the
    scratch files are removed: after [THAW] the legend file stays. *)
Lemma sample_run_uppercase_legend :
  fst (icemapr env_ok (run_args 1 "THAW") disk) = PyBool true /\
  fs (snd (icemapr env_ok (run_args 1 "THAW") disk)) !! mkstemp env_ok ".txt" =
    Some (Text thaw_pct) /\
  fs (snd (icemapr env_ok (run_args 1 "THAW") disk)) !! tmpfile_name env_ok = None.
Proof. repeat split; by vm_compute. Qed.

(** A missing mask ends the run before the segment number is looked at. *)
Lemma sample_run_missing_mask :
  let w := {| fs := {[ "scene.pix" := UserData 1 ]}; log := []; calls := [] |} in
  icemapr env_ok (run_args 3 "thaw") w =
    (PyBool false,
     logger ERROR "Input mask doesn't exists! Looked for river.shp" w).
Proof. by vm_compute. Qed.

(** ** Validation, outcome by outcome *)


Lemma shapefile_segment_value a w :
  fst (shapefile_segment a w) = effective_segment a.
Proof.
  unfold shapefile_segment, effective_segment.
  destruct (String.eqb _ ".shp"); [|done].
  destruct (Z.eqb_spec (inmasks a) 1) as [->|]; done.
Qed.


(** X3: [icemapr] returns [True], [False] or 1, and it returns 1 exactly
    when both inputs exist and the legend selector is neither one of the two
    names (in any case) nor a path with extension [.txt]. *)
Theorem icemapr_return_values env a w :
  (fst (icemapr env a w) = PyBool true \/ fst (icemapr env a w) = PyBool false \/
   fst (icemapr env a w) = PyInt 1) /\
  (fst (icemapr env a w) = PyInt 1 <->
   inputs_present w a = true /\
   str_in (lower (inpct a)) ["freeze"; "thaw"] = false /\
   snd (splitext (inpct a)) <> ".txt"%string).
Proof.
  unfold inputs_present, icemapr. rewrite first_missing_inputs.
  destruct (path_exists w (infile a)); [|simpl; intuition congruence].
  destruct (path_exists w (inmask a)); [|simpl; intuition congruence].
  destruct (shapefile_segment a w) as [m w0]. unfold process, select_legend.
  destruct (str_in (lower (inpct a)) _).
  - destruct (createPCT env (inpct a) w0) as [n w1].
    destruct (path_exists w1 (outfile a)); [simpl; intuition congruence|].
    destruct (run_calls env _ w1) as [[c|] w2]; simpl; intuition congruence.
  - destruct (String.eqb_spec (snd (splitext (inpct a))) ".txt") as [E|E].
    + destruct (negb (path_exists w0 (inpct a))); [simpl; intuition congruence|].
      destruct (path_exists w0 (outfile a)); [simpl; intuition congruence|].
      destruct (run_calls env _ w0) as [[c|] w2]; simpl; intuition congruence.
    + simpl. intuition congruence.
Qed.

(** ** The files a run touches *)

Lemma select_legend_frame env a w q :
  q <> mkstemp env ".txt" ->
  fs (snd (select_legend env a w)) !! q = fs w !! q.
Proof.
  intros Hq. unfold select_legend.
  destruct (str_in (lower (inpct a)) _).
  - destruct (createPCT_spec env (inpct a) w) as (_ & Hf & _).
    destruct (createPCT env (inpct a) w) as [n w1]. simpl in *.
    rewrite Hf. by apply lookup_insert_ne.
  - destruct (String.eqb _ ".txt"); [|done].
    by destruct (negb (path_exists w (inpct a))).
Qed.



Lemma cleanup_frame env a p w q :
  q <> tmpfile_name env ->
  (str_in (inpct a) ["freeze"; "thaw"] = true -> q <> p) ->
  fs (cleanup env a p w) !! q = fs w !! q.
Proof.
  intros Ht Hp. unfold cleanup, os_remove.
  assert (Ht' : tmpfile_name env <> q) by congruence.
  destruct (str_in (inpct a) _).
  - assert (Hp' : p <> q) by (specialize (Hp eq_refl); congruence).
    destruct (remove_ok env p && path_exists w p); simpl; [|done].
    destruct (remove_ok env (tmpfile_name env) && _); simpl.
    + by rewrite !lookup_delete_ne.
    + by rewrite lookup_delete_ne.
  - destruct (remove_ok env (tmpfile_name env) && _); simpl; [|done].
    by rewrite lookup_delete_ne.
Qed.

Lemma exact_name_is_builtin x :
  str_in x ["freeze"; "thaw"] = true -> str_in (lower x) ["freeze"; "thaw"] = true.
Proof. intros H. by destruct (str_in_builtin _ H) as [-> | ->]. Qed.



(** A [try] block that raises has written nothing but the working file. *)
Lemma failed_block_frame env a m p w c w' q :
  run_calls env (pipeline env a m p) w = (Some c, w') ->
  q <> tmpfile_name env ->
  fs w' !! q = fs w !! q.
Proof.
  unfold pipeline. simpl. intros Hrun Hq.
  repeat match type of Hrun with
  | (if pci_ok env ?c then _ else _) = _ =>
      destruct (pci_ok env c);
      [| injection Hrun as _ Hw; subst w'; cbn [fs calls log record_call effect write_file];
         first [ reflexivity | by apply lookup_insert_ne ] ]
  end.
  discriminate Hrun.
Qed.

(** In lines 109-425 the output path is written by the export alone (the
    output path being neither of the two scratch paths). *)
Lemma output_written_on_success_only env a w :
  outfile a <> tmpfile_name env ->
  outfile a <> mkstemp env ".txt" ->
  (fst (icemapr env a w) = PyBool true ->
   fs (snd (icemapr env a w)) !! outfile a = Some GeoTiff) /\
  (fst (icemapr env a w) <> PyBool true ->
   fs (snd (icemapr env a w)) !! outfile a = fs w !! outfile a).
Proof.
  intros Ht Hm. split.
  - intros Hok. destruct (icemapr_true env a w Hok) as [_ He].
    rewrite He in Hok |- *.
    destruct (process_true env a _ _ Hok) as (p & w1 & w2 & Hs & _ & Hr & ->).
    apply run_pipeline_files in Hr.
    rewrite cleanup_frame; [simpl; rewrite Hr; apply lookup_insert_eq|done|].
    intros Hex. apply exact_name_is_builtin in Hex.
    apply select_legend_inr in Hs as [(_ & -> & _)|(Hc & _)]; [done|congruence].
  - unfold icemapr.
    destruct (first_missing w _) as [[f k]|]; [done|].
    destruct (shapefile_segment_calls a w) as [_ Hf].
    destruct (shapefile_segment a w) as [m w0]. simpl in Hf.
    unfold process.
    pose proof (select_legend_frame env a w0 (outfile a) Hm) as Hs.
    destruct (select_legend env a w0) as [[r|p] w1]; cbn [fst snd] in Hs |- *;
      [intros _; by rewrite Hs, Hf|].
    destruct (path_exists w1 (outfile a)); [intros _; cbn [fst snd logger fs]; by rewrite Hs, Hf|].
    destruct (run_calls env (pipeline env a m p) w1) as [[c|] w2] eqn:Hr;
      [|cbn [fst snd]; intros H; exfalso; by apply H].
    intros _. cbn [fst snd logger fs]. rewrite (failed_block_frame _ _ _ _ _ _ _ _ Hr Ht). by rewrite Hs, Hf.
Qed.

Lemma icemapr_return_one_calls env a w z :
  fst (icemapr env a w) = PyInt z -> calls (snd (icemapr env a w)) = calls w.
Proof.
  unfold icemapr.
  destruct (first_missing w _) as [[f k]|]; [done|].
  destruct (shapefile_segment_calls a w) as [Hc _].
  destruct (shapefile_segment a w) as [m w0]. simpl in Hc. unfold process.
  pose proof (select_legend_calls env a w0) as Hl.
  destruct (select_legend env a w0) as [[r|p] w1]; simpl in Hl.
  - simpl. intros _. by rewrite Hl.
  - destruct (path_exists w1 (outfile a)); [discriminate|].
    by destruct (run_calls env _ w1) as [[c|] w2].
Qed.

(** X6: whatever happens, the PCI calls of a run are the first [k] calls of
    the pipeline, in order, with the mask segment [poly2bit] is given being
    1 for a [.shp] mask and the caller's number otherwise; a run that
    returns [True] made all 23. *)
Theorem calls_are_a_pipeline_prefix env a w :
  exists k p,
    calls (snd (icemapr env a w)) =
      calls w ++ take k (pipeline env a (effective_segment a) p) /\
    (fst (icemapr env a w) = PyBool true -> k = 23%nat).
Proof.
  destruct (fst (icemapr env a w)) eqn:Hres.
  - destruct b.
    + destruct (icemapr_true env a w Hres) as [_ He].
      rewrite He in Hres |- *. rewrite shapefile_segment_value in *.
      destruct (process_true env a _ _ Hres) as (p & w1 & w2 & Hs & _ & Hr & ->).
      exists 23%nat, p. split; [|done].
      rewrite cleanup_calls. simpl.
      apply run_calls_done in Hr as [-> _].
      pose proof (select_legend_calls env a (snd (shapefile_segment a w))) as Hl.
      rewrite Hs in Hl. simpl in Hl. rewrite Hl.
      by destruct (shapefile_segment_calls a w) as [-> _].
    + cut (exists k p, calls (snd (icemapr env a w)) =
             calls w ++ take k (pipeline env a (effective_segment a) p)).
      { intros (k & p & H). exists k, p. split; [done|discriminate]. }
      clear Hres. unfold icemapr.
      destruct (first_missing w _) as [[f k]|].
      { exists 0%nat, ""%string. simpl. by rewrite app_nil_r. }
      pose proof (shapefile_segment_value a w) as Hm.
      destruct (shapefile_segment_calls a w) as [Hc _].
      destruct (shapefile_segment a w) as [m w0]. simpl in Hm, Hc. subst m.
      unfold process.
      pose proof (select_legend_calls env a w0) as Hl.
      destruct (select_legend env a w0) as [[r|p] w1]; simpl in Hl.
      { exists 0%nat, ""%string. simpl. by rewrite Hl, Hc, app_nil_r. }
      destruct (path_exists w1 (outfile a)).
      { exists 0%nat, p. simpl. by rewrite Hl, Hc, app_nil_r. }
      destruct (run_calls_prefix env (pipeline env a (effective_segment a) p) w1)
        as [k Hk].
      exists k, p.
      destruct (run_calls env _ w1) as [[c|] w2]; cbn [fst snd] in Hk |- *.
      * cbn [logger calls]. by rewrite Hk, Hl, Hc.
      * rewrite cleanup_calls. cbn [logger calls]. by rewrite Hk, Hl, Hc.
  - exists 0%nat, ""%string. split; [|discriminate].
    pose proof (icemapr_return_one_calls env a w z Hres) as H.
    simpl. by rewrite app_nil_r.
Qed.

(** ** What a run logs *)

Lemma select_legend_log env a w :
  match fst (select_legend env a w) with
  | inl r => r <> PyBool true /\
      exists m, log (snd (select_legend env a w)) = log w ++ [{| lvl := ERROR; msg := m |}]
  | inr _ => log (snd (select_legend env a w)) = log w
  end.
Proof.
  unfold select_legend.
  destruct (str_in (lower (inpct a)) ["freeze"; "thaw"]) eqn:Hin.
  - unfold createPCT.
    destruct (String.eqb_spec (lower (inpct a)) "thaw") as [E|E]; [done|].
    destruct (String.eqb_spec (lower (inpct a)) "freeze") as [E'|E']; [done|].
    unfold str_in in Hin. simpl in Hin.
    apply String.eqb_neq in E, E'. by rewrite E, E' in Hin.
  - destruct (String.eqb _ ".txt"); [|simpl; eauto].
    destruct (negb (path_exists w (inpct a))); simpl; eauto.
Qed.

Lemma cleanup_log env a p w :
  exists m, log (cleanup env a p w) = log w ++ [{| lvl := INFO; msg := m |}].
Proof.
  unfold cleanup, os_remove.
  repeat case_match; simplify_eq; simpl; eauto.
Qed.

Lemma process_log env a m w :
  exists tail, log (snd (process env a m w)) = log w ++ tail /\
    ((fst (process env a m w) <> PyBool true /\
      exists e, tail = [{| lvl := ERROR; msg := e |}]) \/
     (fst (process env a m w) = PyBool true /\
      exists i, tail = [{| lvl := INFO; msg := "Icemap produced successfully" |};
                        {| lvl := INFO; msg := i |}])).
Proof.
  unfold process.
  pose proof (select_legend_log env a w) as Hs.
  destruct (select_legend env a w) as [[r|p] w1]; cbn [fst snd] in Hs |- *.
  { destruct Hs as (Hr & e & ->). exists [{| lvl := ERROR; msg := e |}]. eauto. }
  destruct (path_exists w1 (outfile a)).
  { eexists. cbn [fst snd logger log]. rewrite Hs. split; [done|]. left. eauto. }
  pose proof (run_calls_log env (pipeline env a m p) w1) as Hr.
  destruct (run_calls env (pipeline env a m p) w1) as [[c|] w2]; cbn [fst snd] in Hr |- *.
  - eexists. cbn [logger log]. rewrite Hr, Hs. split; [done|]. left. eauto.
  - destruct (cleanup_log env a p (logger INFO "Icemap produced successfully" w2))
      as [i Hi].
    eexists. rewrite Hi. cbn [logger log]. rewrite Hr, Hs, <- app_assoc.
    split; [done|]. right. eauto.
Qed.

(** The records a run adds: the shapefile warning if it applies, then
    either one error or the two closing records. *)
Lemma new_records_shape env a w :
  (inputs_present w a = false /\ fst (icemapr env a w) = PyBool false /\
   exists e, new_records env a w = [{| lvl := ERROR; msg := e |}]) \/
  (inputs_present w a = true /\
   exists tail,
     new_records env a w =
       (if String.eqb (snd (splitext (inmask a))) ".shp" && negb (inmasks a =? 1)
        then [shapefile_warning] else []) ++ tail /\
     ((fst (icemapr env a w) <> PyBool true /\
       exists e, tail = [{| lvl := ERROR; msg := e |}]) \/
      (fst (icemapr env a w) = PyBool true /\
       exists i, tail = [{| lvl := INFO; msg := "Icemap produced successfully" |};
                         {| lvl := INFO; msg := i |}]))).
Proof.
  unfold new_records, inputs_present, icemapr. rewrite first_missing_inputs.
  destruct (path_exists w (infile a)); cbn [andb];
    [|left; cbn [fst snd logger log]; rewrite drop_app_length; eauto].
  destruct (path_exists w (inmask a));
    [|left; cbn [fst snd logger log]; rewrite drop_app_length; eauto].
  right. split; [done|].
  unfold shapefile_segment.
  destruct (String.eqb _ ".shp"); cbn [andb].
  - destruct (negb (inmasks a =? 1)).
    + destruct (process_log env a 1 (logger WARNING (msg shapefile_warning) w))
        as (tail & Hl & Ht).
      exists tail. cbn [msg shapefile_warning] in Hl. rewrite Hl.
      cbn [logger log]. rewrite <- app_assoc, drop_app_length. done.
    + destruct (process_log env a (inmasks a) w) as (tail & Hl & Ht).
      exists tail. rewrite Hl, drop_app_length. done.
  - destruct (process_log env a (inmasks a) w) as (tail & Hl & Ht).
    exists tail. rewrite Hl, drop_app_length. done.
Qed.

Lemma new_records_app env a w :
  log (snd (icemapr env a w)) = log w ++ new_records env a w.
Proof.
  unfold new_records, icemapr. rewrite first_missing_inputs.
  destruct (path_exists w (infile a));
    [|cbn [fst snd logger log]; by rewrite drop_app_length].
  destruct (path_exists w (inmask a));
    [|cbn [fst snd logger log]; by rewrite drop_app_length].
  unfold shapefile_segment.
  destruct (String.eqb _ ".shp"); [destruct (negb (inmasks a =? 1))|];
    match goal with
    | |- context [process env a ?m ?w0] =>
        destruct (process_log env a m w0) as (tail & Hl & _); rewrite Hl
    end; cbn [logger log]; rewrite <- ?app_assoc, drop_app_length; done.
Qed.

(** X7: a run that returns [True] logs no error; any other run logs exactly
    one error record, and it is the last record of the run. *)
Theorem one_error_unless_success env a w :
  log (snd (icemapr env a w)) = log w ++ new_records env a w /\
  (fst (icemapr env a w) = PyBool true ->
   List.filter is_error (new_records env a w) = []) /\
  (fst (icemapr env a w) <> PyBool true ->
   exists e, List.filter is_error (new_records env a w) = [e] /\
             last (new_records env a w) = Some e).
Proof.
  split; [apply new_records_app|].
  destruct (new_records_shape env a w)
    as [(_ & Hf & e & ->)|(_ & tail & -> & [(Hn & e & ->)|(Ht & i & ->)])].
  - split; [congruence|]. intros _. by exists {| lvl := ERROR; msg := e |}.
  - split; [done|]. intros _. exists {| lvl := ERROR; msg := e |}.
    by destruct (_ && _).
  - split; [|done]. intros _. by destruct (_ && _).
Qed.

(** X8: the only warning a run can log is the shapefile correction, once,
    and it does so exactly when both inputs exist, the mask has extension
    [.shp] and the segment number given is not 1. *)
Theorem warnings_of_a_run env a w :
  List.filter is_warning (new_records env a w) =
  if inputs_present w a && String.eqb (snd (splitext (inmask a))) ".shp" &&
     negb (inmasks a =? 1)
  then [shapefile_warning] else [].
Proof.
  destruct (new_records_shape env a w)
    as [(-> & _ & e & ->)|(-> & tail & -> & [(_ & e & ->)|(_ & i & ->)])];
    [done|..]; cbn [andb]; by destruct (_ && _).
Qed.

(** ** Refusal, and what the clean-up leaves *)


(** The two scratch names never coincide: one ends in [x], the other in [t]. *)
Lemma last_of_some t : t <> ""%string -> exists c, last_of t = Some c.
Proof. destruct t as [|c t]; [done|]. intros _. simpl. destruct (last_of t); eauto. Qed.

Lemma append_not_empty (s t : string) : t <> ""%string -> (s ++ t)%string <> ""%string.
Proof. destruct s; [done|discriminate]. Qed.

Lemma last_of_app (s t : string) : t <> ""%string -> last_of (s ++ t)%string = last_of t.
Proof.
  intros Ht. induction s as [|c s IH]; [reflexivity|].
  change (last_of (String c (s ++ t)%string) = last_of t).
  cbn [last_of]. rewrite IH. by destruct (last_of_some t Ht) as [d ->].
Qed.

Lemma string_app_assoc (a b c : string) : ((a ++ b) ++ c = a ++ (b ++ c))%string.
Proof. induction a as [|x a IH]; [reflexivity|]. exact (f_equal (String x) IH). Qed.

Lemma path_join_suffix a b : exists pre, path_join a b = (pre ++ b)%string.
Proof.
  unfold path_join.
  destruct (String.eqb a ""); [by exists ""%string|].
  destruct (Ascii.eqb _ _); [by exists a|].
  exists (a ++ "/")%string. by rewrite string_app_assoc.
Qed.

Lemma scratch_names_differ env : tmpfile_name env <> mkstemp env ".txt".
Proof.
  unfold tmpfile_name, mkstemp. intros E. apply (f_equal last_of) in E.
  destruct (path_join_suffix (tempdir env) ("icemap_tmpfile_" ++ now env ++ ".pix"))
    as [p1 H1].
  destruct (path_join_suffix (tempdir env) ("tmp" ++ mkstemp_stem env ++ ".txt"))
    as [p2 H2].
  rewrite H1, H2 in E.
  rewrite !last_of_app in E; try discriminate; try (apply append_not_empty; discriminate).
Qed.

(** What is on disk once the [try] block of a successful run is over. *)
Lemma success_before_cleanup env a w :
  fst (icemapr env a w) = PyBool true ->
  exists p w2,
    snd (icemapr env a w) =
      cleanup env a p (logger INFO "Icemap produced successfully" w2) /\
    ((str_in (lower (inpct a)) ["freeze"; "thaw"] = true /\ p = mkstemp env ".txt" /\
      outfile a <> mkstemp env ".txt" /\
      fs w2 = <[outfile a := GeoTiff]> (<[tmpfile_name env := Pcidsk]>
                (<[mkstemp env ".txt" := Text (Legend.builtin (inpct a))]> (fs w)))) \/
     (str_in (lower (inpct a)) ["freeze"; "thaw"] = false /\ p = inpct a /\
      fs w2 = <[outfile a := GeoTiff]> (<[tmpfile_name env := Pcidsk]> (fs w)))).
Proof.
  intros Hok. destruct (icemapr_true env a w Hok) as [_ He].
  rewrite He in Hok |- *.
  destruct (process_true env a _ _ Hok) as (p & w1 & w2 & Hs & Hno & Hr & ->).
  apply run_pipeline_files in Hr.
  destruct (shapefile_segment_calls a w) as [_ Hf].
  exists p, w2. split; [done|].
  apply select_legend_inr in Hs as [(Hb & -> & Hf1)|(Hb & -> & ->)]; [left|right].
  - repeat split; try done.
    + intros E. apply path_exists_false in Hno. rewrite E, Hf1 in Hno.
      by rewrite lookup_insert_eq in Hno.
    + by rewrite Hr, Hf1, Hf.
  - by rewrite Hr, Hf.
Qed.


(** X11: a legend name is accepted in any case but compared as given when
    the scratch files are removed: after a successful run with a name that
    is not in lower case, the legend file [createPCT] wrote is still on
    disk. *)
Theorem legend_file_left_for_other_case env a w :
  fst (icemapr env a w) = PyBool true ->
  str_in (lower (inpct a)) ["freeze"; "thaw"] = true ->
  str_in (inpct a) ["freeze"; "thaw"] = false ->
  fs (snd (icemapr env a w)) !! mkstemp env ".txt" =
    Some (Text (Legend.builtin (inpct a))).
Proof.
  intros Hok Hlow Hex.
  destruct (success_before_cleanup env a w Hok)
    as (p & w2 & -> & [(_ & -> & Hne & Hf)|(Hb & _)]); [|congruence].
  rewrite cleanup_frame.
  - cbn [logger fs]. rewrite Hf.
    rewrite lookup_insert_ne by done.
    rewrite lookup_insert_ne by apply scratch_names_differ.
    apply lookup_insert_eq.
  - intros E. by apply (scratch_names_differ env).
  - congruence.
Qed.

Lemma legend_file_left_for_other_case_witness :
  fs (snd (icemapr env_ok (run_args 1 "Freeze") disk)) !! mkstemp env_ok ".txt" =
    Some (Text (Legend.builtin (inpct (run_args 1 "Freeze")))).
Proof.
  apply (legend_file_left_for_other_case env_ok (run_args 1 "Freeze") disk); by vm_compute.
Defined.


(** ** The channels of the working file *)

Lemma defined_before_use_spec cs : forall written,
  defined_before_use written cs = true ->
  forall i c, cs !! i = Some c ->
  forall ch, In ch (reads_of c) -> In ch (written ++ flat_map writes (take i cs)).
Proof.
  induction cs as [|c0 cs IH]; intros written H i c Hi ch Hch; [done|].
  simpl in H. apply andb_true_iff in H as [H0 H1].
  destruct i as [|i]; simpl in Hi.
  - injection Hi as <-. simpl. rewrite app_nil_r.
    rewrite forallb_forall in H0. specialize (H0 ch Hch).
    apply existsb_exists in H0 as (x & Hx & E). apply Nat.eqb_eq in E. by subst.
  - simpl. rewrite app_assoc. by eapply IH.
Qed.

(** X13: each of the twelve channels of the working file (six allocated by
    [cim], six added by [pcimod]) is written by exactly one call of the
    pipeline, and no call reads a channel before the call that writes it. *)
Theorem channels_written_once_then_read env a m p :
  (forall ch, length (writers ch (pipeline env a m p)) =
     if ((1 <=? ch) && (ch <=? 12))%nat then 1%nat else 0%nat) /\
  forall i c, pipeline env a m p !! i = Some c ->
  forall ch, In ch (reads_of c) -> In ch (flat_map writes (take i (pipeline env a m p))).
Proof.
  split.
  - intros ch. do 13 (destruct ch as [|ch]; [reflexivity|]). reflexivity.
  - intros i c Hi ch Hch.
    apply (defined_before_use_spec (pipeline env a m p) [] eq_refl i c Hi ch Hch).
Qed.

(** ** The two scripts *)

Lemma set_other p r r' v : r <> r' -> Easi.get (Easi.set p r v) r' = Easi.get p r'.
Proof.
  intros Hne. destruct r as [n|n], r' as [n'|n']; simpl; try reflexivity;
    destruct (Nat.eqb_spec n' n) as [->|]; congruence.
Qed.

(** A script changes only what it assigns. *)
Lemma exec_frame s : forall p r,
  ~ In r (Easi.assigned s) -> Easi.get (Easi.exec s p) r = Easi.get p r.
Proof.
  induction s as [|r0 e|s1 IH1 s2 IH2|c s1 IH1 s2 IH2]; intros p r Hr; simpl in *.
  - reflexivity.
  - apply set_other. intuition congruence.
  - rewrite IH2, IH1; auto; intros H; apply Hr, in_or_app; auto.
  - destruct (Easi.holds p c); [apply IH1|apply IH2];
      intros H; apply Hr, in_or_app; auto.
Qed.

(** X14: the fusion script writes channel 5 and nothing else: every other
    channel (the coarse map and the two fine maps among them) and every
    bitmap of a pixel are after the script what they were before. *)
Theorem fusion_writes_channel_5_only (p : Easi.pixel) :
  (forall c, c <> 5%nat -> Easi.img (Easi.exec fusion p) c = Easi.img p c) /\
  (forall b, Easi.bit (Easi.exec fusion p) b = Easi.bit p b).
Proof.
  split.
  - intros c Hc. apply (exec_frame fusion p (Easi.Chan c)).
    simpl. intuition congruence.
  - intros b. apply (exec_frame fusion p (Easi.Bitmap b)).
    simpl. intuition congruence.
Qed.

(** X15: the crop script only takes pixels out of the river mask: after it
    a pixel is in the mask exactly when it was in the rasterized mask and
    its radar value is not 0; no channel and no other bitmap changes. *)
Theorem crop_only_clears_the_mask (p : Easi.pixel) :
  let p' := Easi.exec (crop_source [7%nat] 2) p in
  (Easi.bit p' 2 <> 0 <-> Easi.bit p 2 <> 0 /\ Easi.img p 7 <> 0) /\
  (forall c, Easi.img p' c = Easi.img p c) /\
  (forall b, b <> 2%nat -> Easi.bit p' b = Easi.bit p b).
Proof.
  unfold crop_source. simpl.
  destruct (Z.eqb_spec (Easi.img p 7) 0) as [E|E]; simpl.
  - repeat split; try tauto; try lia.
    intros b Hb. by destruct (Nat.eqb_spec b 2).
  - repeat split; tauto.
Qed.

(** X16: the final class tells the coarse class: a pixel whose final class
    is not 0 had coarse class 1 if the final class is 1 or 2, the final class
    less one if it is 3 to 7, and 7 if it is 8 or 9. *)
Theorem coarse_class_recoverable (v : Easi.pixel) :
  Easi.img (Easi.exec fusion (pixel_before_fusion v)) 5 <> 0 ->
  coarse_of_final (Easi.img (Easi.exec fusion (pixel_before_fusion v)) 5) = Easi.img v 2.
Proof.
  unfold fusion, fusion_source, coarse_of_final, blank_value. simpl.
  repeat match goal with
  | |- context [if ?b then _ else _] =>
      let E := fresh "E" in destruct b eqn:E; simpl; try lia
  end; intros H; try lia; try (exfalso; by apply H).
Qed.

Lemma coarse_class_recoverable_witness :
  coarse_of_final (Easi.img (Easi.exec fusion (pixel_before_fusion (class_pixel 7 0 6))) 5)
  = Easi.img (class_pixel 7 0 6) 2.
Proof. apply (coarse_class_recoverable (class_pixel 7 0 6)). by vm_compute. Defined.

(** ** The logger set-up *)

Lemma setupLogger_frozen f l lg :
  (1 < length (handlers lg))%nat -> setupLogger f l lg = (0, lg).
Proof.
  intros H. unfold setupLogger.
  destruct (Nat.leb_spec (length (handlers lg)) 1); [lia|done].
Qed.

Lemma setup_many_frozen cs : forall lg,
  (1 < length (handlers lg))%nat -> setup_many cs lg = lg.
Proof.
  induction cs as [|[f l] cs IH]; intros lg H; [done|].
  unfold setup_many in *. simpl. rewrite setupLogger_frozen by done. simpl. by apply IH.
Qed.

(** X17: the first set-up with a log file is the one that counts: once
    [setupLogger] has been called with a file name on a logger with at most
    one handler, every later call returns 0 and changes neither the handlers
    nor the level.  So the level [main] sets from the command line is not
    replaced by the set-up [icemapr] does itself. *)
Theorem first_setup_with_file_wins f l lg cs f' l' :
  (length (handlers lg) <= 1)%nat ->
  let lg1 := snd (setupLogger (Some f) l lg) in
  setup_many cs lg1 = lg1 /\ setupLogger f' l' lg1 = (0, lg1).
Proof.
  intros H lg1.
  assert (Hlen : (1 < length (handlers lg1))%nat).
  { subst lg1. unfold setupLogger.
    destruct (Nat.leb_spec (length (handlers lg)) 1); [|lia].
    simpl. rewrite !length_app. simpl. lia. }
  split; [by apply setup_many_frozen|by apply setupLogger_frozen].
Qed.

Lemma first_setup_with_file_wins_witness :
  let lg := {| handlers := []; logger_level := 30 |} in
  let lg1 := snd (setupLogger (Some "run.log"%string) 40 lg) in
  setup_many [(None, 20)] lg1 = lg1 /\ setupLogger None 20 lg1 = (0, lg1).
Proof.
  apply (first_setup_with_file_wins "run.log" 40
           {| handlers := []; logger_level := 30 |} [(None, 20)] None 20).
  simpl. lia.
Defined.

(** X18: however often the logger is set up, it never holds more than
    three handlers (if it held at most three to begin with). *)
Theorem handlers_never_exceed_three cs : forall lg,
  (length (handlers lg) <= 3)%nat ->
  (length (handlers (setup_many cs lg)) <= 3)%nat.
Proof.
  induction cs as [|[f l] cs IH]; intros lg H; [done|].
  unfold setup_many in *. simpl. apply IH.
  unfold setupLogger.
  destruct (Nat.leb_spec (length (handlers lg)) 1); [|done].
  destruct f; simpl; rewrite !length_app; simpl; lia.
Qed.

Lemma handlers_never_exceed_three_witness :
  (length (handlers (setup_many [(None, 20%Z); (Some "run.log"%string, 20%Z); (None, 10%Z)]
                       {| handlers := []; logger_level := 30%Z |})) <= 3)%nat.
Proof.
  apply (handlers_never_exceed_three
           [(None, 20); (Some "run.log"%string, 20); (None, 10)]
           {| handlers := []; logger_level := 30 |}).
  simpl. lia.
Defined.

(** X19: two set-ups without a log file on a fresh logger install two
    console handlers, the level being that of the second call: a record at
    or above both levels goes to the console twice. *)
Theorem second_setup_without_file_doubles_console l1 l2 lv lg :
  handlers lg = [] ->
  l1 <= levelno lv ->
  l2 <= levelno lv ->
  let lg2 := setup_many [(None, l1); (None, l2)] lg in
  logger_level lg2 = l2 /\
  delivered lg2 lv = [StreamHandler l1; StreamHandler l2].
Proof.
  intros Hh H1 H2. unfold setup_many, setupLogger, delivered. simpl.
  rewrite Hh. simpl.
  destruct (Z.leb_spec l2 (levelno lv)); [|lia].
  destruct (Z.leb_spec l1 (levelno lv)); [|lia]. done.
Qed.

Lemma second_setup_without_file_doubles_console_witness :
  let lg2 := setup_many [(None, 20); (None, 20)] {| handlers := []; logger_level := 30 |} in
  logger_level lg2 = 20 /\
  delivered lg2 WARNING = [StreamHandler 20; StreamHandler 20].
Proof.
  apply (second_setup_without_file_doubles_console 20 20 WARNING
           {| handlers := []; logger_level := 30 |}); simpl; (reflexivity || lia).
Defined.

(** X20: after a set-up with [logdetails * 10] on a fresh logger, a record
    reaches a handler exactly when its level number is at least
    [logdetails * 10], and then it reaches every handler.  With [logdetails]
    5 (level 50) nothing [icemapr] logs is written, its errors included;
    with 4 only the errors are. *)
Theorem delivery_threshold f d lv lg :
  handlers lg = [] ->
  let lg1 := snd (setupLogger f (d * 10) lg) in
  delivered lg1 lv = (if d * 10 <=? levelno lv then handlers lg1 else []) /\
  handlers lg1 <> [].
Proof.
  intros Hh. unfold setupLogger, delivered. rewrite Hh. simpl.
  destruct f; simpl; destruct (d * 10 <=? levelno lv); done.
Qed.

Lemma delivery_threshold_witness :
  let lg1 := snd (setupLogger (Some "run.log"%string) (5 * 10)
                    {| handlers := []; logger_level := 30 |}) in
  delivered lg1 ERROR = (if 5 * 10 <=? levelno ERROR then handlers lg1 else []) /\
  handlers lg1 <> [].
Proof.
  apply (delivery_threshold (Some "run.log"%string) 5 ERROR
           {| handlers := []; logger_level := 30 |}).
  reflexivity.
Defined.

(** ** [createPCT] *)

(** X21: whatever the season name, [createPCT] writes one new file, returns
    its name and leaves every other file as it is; the text is the thaw
    legend when the name is [thaw] in any case and the freeze legend
    otherwise, with a warning when the name is neither; and the text always
    reads as a table whose ranges cover 0 to 255 without gap or overlap. *)
Theorem createPCT_behaviour env season w :
  let name := fst (createPCT env season w) in
  let w' := snd (createPCT env season w) in
  name = mkstemp env ".txt" /\
  fs w' !! name =
    Some (Text (if String.eqb (lower season) "thaw" then thaw_pct else freeze_pct)) /\
  (forall q, q <> name -> fs w' !! q = fs w !! q) /\
  log w' = log w ++
    (if str_in (lower season) ["freeze"; "thaw"] then []
     else [{| lvl := WARNING;
              msg := "Invalid value in selecting legend. Freezing legend applied!" |}]) /\
  exists rs,
    Legend.parse (if String.eqb (lower season) "thaw" then thaw_pct else freeze_pct)
      = Some rs /\
    tiles 0 rs = Some 256.
Proof.
  unfold createPCT, str_in. simpl.
  destruct (String.eqb (lower season) "thaw") eqn:Et; simpl.
  - rewrite orb_true_r. simpl. rewrite app_nil_r.
    repeat split; try done.
    + apply lookup_insert_eq.
    + intros q Hq. by apply lookup_insert_ne.
    + eexists. split; by vm_compute.
  - rewrite orb_false_r.
    destruct (String.eqb (lower season) "freeze") eqn:Ef; simpl.
    + rewrite app_nil_r. repeat split; try done.
      * apply lookup_insert_eq.
      * intros q Hq. by apply lookup_insert_ne.
      * eexists. split; by vm_compute.
    + repeat split; try done.
      * apply lookup_insert_eq.
      * intros q Hq. by apply lookup_insert_ne.
      * eexists. split; by vm_compute.
Qed.

(** ** [main] *)

Lemma builtin_never_returns_int env a w z :
  str_in (lower (inpct a)) ["freeze"; "thaw"] = true ->
  fst (icemapr env a w) <> PyInt z.
Proof.
  intros Hb. unfold icemapr.
  destruct (first_missing w _) as [[f k]|]; [done|].
  destruct (shapefile_segment a w) as [m w0]. unfold process, select_legend.
  rewrite Hb.
  destruct (createPCT env (inpct a) w0) as [n w1].
  destruct (path_exists w1 (outfile a)); [done|].
  by destruct (run_calls env _ w1) as [[c|] w2].
Qed.

(** The arguments [main] passes to [icemapr] when no [--pctfile] is given. *)
Lemma main_without_pctfile env n w :
  parse_ok n = true ->
  ns_pctfile n = None ->
  exists a,
    infile a = ns_infile n /\ inmask a = ns_inmask n /\ outfile a = ns_outfile n /\
    inpct a = ns_pct n /\
    str_in (inpct a) ["freeze"; "thaw"] = true /\
    main env n w =
      (if negb (truthy (fst (icemapr env a w)))
       then (1, logger WARNING
                  "Check log file and temporary file for information about the problems."
                  (logger WARNING
                     "Problems occured within icemapr function and output may not be produced."
                     (snd (icemapr env a w))))
       else (0, logger INFO "Icemapr successfully closed" (snd (icemapr env a w)))).
Proof.
  intros Hp Hn. unfold main. rewrite Hp, Hn. cbn [negb].
  eexists {| infile := ns_infile n; infilec := ns_infilec n; inmask := ns_inmask n;
             inmasks := ns_inmasks n; inpct := ns_pct n; outfile := ns_outfile n;
             logfile := None; logdetails := 2 |}.
  repeat split.
  - cbn [inpct]. unfold parse_ok in Hp.
    destruct (str_in (ns_pct n) _); [done|discriminate].
  - by destruct (icemapr env _ w) as [r w'].
Qed.

(** X22: without [--pctfile], exit code 0 means the raster was written:
    [main] returns 0 only after a run of [icemapr] that returned [True], and
    the output path then holds the exported raster (the output path being
    neither of the two scratch paths). *)
Theorem exit_zero_means_output_written env n w :
  parse_ok n = true ->
  ns_pctfile n = None ->
  ns_outfile n <> tmpfile_name env ->
  ns_outfile n <> mkstemp env ".txt" ->
  fst (main env n w) = 0 ->
  fs (snd (main env n w)) !! ns_outfile n = Some GeoTiff.
Proof.
  intros Hp Hn Hot Hom.
  destruct (main_without_pctfile env n w Hp Hn) as (a & Hi & Hm & Ho & Hl & Hex & ->).
  destruct (fst (icemapr env a w)) as [[|]|z] eqn:Hres; cbn [truthy negb fst snd];
    [|discriminate|].
  - intros _. cbn [logger fs].
    destruct (success_before_cleanup env a w Hres) as (p & w2 & -> & Hcases).
    rewrite <- Ho in *.
    rewrite cleanup_frame; [| done |].
    + cbn [logger fs].
      destruct Hcases as [(_ & _ & _ & ->)|(_ & _ & ->)]; apply lookup_insert_eq.
    + intros _. destruct Hcases as [(_ & -> & _)|(Hf & _)]; [done|].
      apply exact_name_is_builtin in Hex. congruence.
  - exfalso. apply (builtin_never_returns_int env a w z); [|done].
    by apply exact_name_is_builtin.
Qed.

Lemma exit_zero_means_output_written_witness :
  let n := {| ns_infile := "scene.pix"; ns_infilec := 1; ns_inmask := "river.shp";
              ns_inmasks := 1; ns_pct := "thaw"; ns_outfile := "icemap.tif";
              ns_logfile := "run.log"; ns_pctfile := None; ns_logdetails := 2 |} in
  fs (snd (main env_ok n disk)) !! ns_outfile n = Some GeoTiff.
Proof.
  apply (exit_zero_means_output_written env_ok
           {| ns_infile := "scene.pix"; ns_infilec := 1; ns_inmask := "river.shp";
              ns_inmasks := 1; ns_pct := "thaw"; ns_outfile := "icemap.tif";
              ns_logfile := "run.log"; ns_pctfile := None; ns_logdetails := 2 |} disk);
    by vm_compute.
Defined.

(** [main] after its set-up, without [--pctfile] and with a file at the
    output path. *)
Lemma cli_refuses_existing_output env n w :
  parse_ok n = true ->
  ns_pctfile n = None ->
  is_Some (fs w !! ns_outfile n) ->
  fs w !! mkstemp env ".txt" = None ->
  fst (main env n w) = 1 /\
  calls (snd (main env n w)) = calls w /\
  fs (snd (main env n w)) !! ns_outfile n = fs w !! ns_outfile n.
Proof.
  intros Hp Hn Hout Hfresh.
  destruct (main_without_pctfile env n w Hp Hn) as (a & Hi & Hm & Ho & Hl & Hex & ->).
  rewrite <- Ho in *.
  destruct (existing_output_untouched env a w Hout Hfresh) as (Hc & Hf & Hnt).
  destruct (fst (icemapr env a w)) as [[|]|z] eqn:Hres; cbn [truthy negb fst snd].
  - by destruct Hnt.
  - cbn [logger fs calls]. auto.
  - exfalso. apply (builtin_never_returns_int env a w z); [|done].
    by apply exact_name_is_builtin.
Qed.


(** A command line with a [--pctfile] that is neither a name nor a text
    file, both inputs being in place. *)
Lemma invalid_legend_exit_zero_witness : fst (main env_ok cli_pctfile disk) = 0.
Proof.
  apply (invalid_legend_exit_zero env_ok cli_pctfile "legend.pct" disk);
    try (by vm_compute).
  intros (pre & H).
  repeat (destruct pre as [|? pre]; [discriminate H|injection H as _ H]).
  destruct pre; discriminate H.
Defined.

(** ** A PCI call that raises *)

Lemma run_calls_raised env cs : forall w c w',
  run_calls env cs w = (Some c, w') ->
  pci_ok env c = false /\ last (calls w') = Some c.
Proof.
  induction cs as [|c0 cs IH]; intros w c w'; simpl; [discriminate|].
  destruct (pci_ok env c0) eqn:E.
  - apply IH.
  - intros [= <- <-]. split; [done|]. cbn [record_call calls]. apply last_snoc.
Qed.

(** X25: a run that called PCI and did not return [True] stopped at a call
    that raised: that call is the last one made, and its message, logged as
    an error, is the last record of the run. *)
Theorem failure_after_calls_is_a_raised_call env a w :
  calls w = [] ->
  fst (icemapr env a w) <> PyBool true ->
  calls (snd (icemapr env a w)) <> [] ->
  exists c,
    last (calls (snd (icemapr env a w))) = Some c /\
    pci_ok env c = false /\
    last (log (snd (icemapr env a w))) =
      Some {| lvl := ERROR; msg := pci_message env c |}.
Proof.
  intros Hcalls. unfold icemapr.
  destruct (first_missing w _) as [[f k]|]; [cbn [fst snd logger calls]; congruence|].
  destruct (shapefile_segment_calls a w) as [Hc _].
  destruct (shapefile_segment a w) as [m w0]. cbn [fst snd] in Hc. unfold process.
  pose proof (select_legend_calls env a w0) as Hl.
  destruct (select_legend env a w0) as [[r|p] w1]; cbn [fst snd] in Hl |- *;
    [intros _; congruence|].
  destruct (path_exists w1 (outfile a)); [cbn [fst snd logger calls]; congruence|].
  destruct (run_calls env (pipeline env a m p) w1) as [[c|] w2] eqn:Hr;
    cbn [fst snd]; [|intros H; exfalso; by apply H].
  intros _ _. apply run_calls_raised in Hr as [Hno Hlast].
  exists c. cbn [logger calls log]. by rewrite last_snoc.
Qed.

Lemma failure_after_calls_is_a_raised_call_witness :
  exists c,
    last (calls (snd (icemapr env_tex_raises (run_args 1 "thaw") disk))) = Some c /\
    pci_ok env_tex_raises c = false /\
    last (log (snd (icemapr env_tex_raises (run_args 1 "thaw") disk))) =
      Some {| lvl := ERROR; msg := pci_message env_tex_raises c |}.
Proof.
  apply (failure_after_calls_is_a_raised_call env_tex_raises (run_args 1 "thaw") disk);
    by vm_compute.
Defined.

(** ** What is exported *)

(** X26: the channel [fexport] is given is channel 6, which holds the sieve
    (threshold 12, keep value 0, 4-connected) of channel 5; channel 5 holds
    the fusion script run over a blank channel, reading the sieved coarse
    map and the two fine maps and nothing else; and the working file ends
    with five segments: georeferencing, river mask, class-1 and class-7
    submasks, and the colour table read from the legend file. *)
Theorem exported_layer env a m p :
  let f := working_file (pipeline env a m p) in
  last (pipeline env a m p) =
    Some (Fexport (tmpfile_name env) (outfile a) [] [6%nat] [] [] []
            (pctread_nseg env) "TIF" "") /\
  chan_at f 6 = Sieved [12] [0] [4] (chan_at f 5) /\
  (exists inputs,
     chan_at f 5 = Scripted fusion (Easi.Chan 5) Blank inputs /\
     forall x, In x inputs ->
       x = sieved_coarse_map a m \/ x = fine_map_A a m \/ x = fine_map_B a m) /\
  segs f = [ Georeferencing; river_mask a m; class_submask a m 1;
             class_submask a m 7; PctTable p ].
Proof.
  split; [reflexivity|]. split; [reflexivity|]. split; [|reflexivity].
  set (s := sieved_coarse_map a m). set (fa := fine_map_A a m). set (fb := fine_map_B a m).
  exists [s; s; s; s; fa; fa; fa; s; fb; fb; fb]. split; [reflexivity|].
  intros x Hx. cbn [In] in Hx.
  repeat (destruct Hx as [<-|Hx]; [auto|]). destruct Hx.
Qed.

(** ** Calls with their logger set-up *)

(** The set-up makes no PCI call and logs nothing; on disk it touches the
    log file alone, and it removes nothing. *)
Lemma setup_logging_world le f l lg w :
  let w1 := snd (setup_logging le f l lg w) in
  calls w1 = calls w /\ log w1 = log w /\
  (forall q, f <> Some q -> fs w1 !! q = fs w !! q) /\
  (forall q, is_Some (fs w !! q) -> is_Some (fs w1 !! q)).
Proof.
  unfold setup_logging.
  destruct (length (handlers lg) <=? 1)%nat; [|done].
  destruct f as [f|]; [|done].
  destruct (open_ok le f); [|done].
  cbn [snd write_file fs calls log]. repeat split.
  - intros q Hq. apply lookup_insert_ne. congruence.
  - intros q Hq. destruct (decide (f = q)) as [->|].
    + rewrite lookup_insert_eq. by eexists.
    + by rewrite lookup_insert_ne.
Qed.



(** Without a log file the set-up leaves the disk alone. *)
Lemma setup_logging_no_file le l lg w :
  snd (setup_logging le None l lg w) = w /\
  exists r, fst (fst (setup_logging le None l lg w)) = Returned r.
Proof.
  unfold setup_logging.
  destruct (length (handlers lg) <=? 1)%nat; split; try done; by eexists.
Qed.

(** An exception of the set-up leaves the disk as it was. *)
Lemma setup_logging_raised le f l lg w e :
  fst (fst (setup_logging le f l lg w)) = Raised e ->
  snd (setup_logging le f l lg w) = w.
Proof.
  unfold setup_logging.
  destruct (length (handlers lg) <=? 1)%nat; [|done].
  destruct f as [f|]; [|done].
  by destruct (open_ok le f).
Qed.


(** When the set-up returns, the logger is as [setupLogger] leaves it. *)
Lemma setup_logging_logger le f l lg w r :
  fst (fst (setup_logging le f l lg w)) = Returned r ->
  (r, snd (fst (setup_logging le f l lg w))) = setupLogger f l lg.
Proof.
  unfold setup_logging, setupLogger.
  destruct (length (handlers lg) <=? 1)%nat; [|by intros [= <-]].
  destruct f as [f|]; [|by intros [= <-]].
  destruct (open_ok le f); [|done].
  intros [= <-]. cbn [fst snd]. by rewrite <- app_assoc.
Qed.


Lemma icemapr_call_cases env le a lg w :
  (fst (fst (icemapr_call env le a lg w)) =
     Returned (fst (icemapr env a (after_setup le a lg w))) /\
   snd (icemapr_call env le a lg w) = snd (icemapr env a (after_setup le a lg w))) \/
  ((exists e, fst (fst (icemapr_call env le a lg w)) = Raised e) /\
   snd (icemapr_call env le a lg w) = w).
Proof.
  unfold icemapr_call, after_setup.
  pose proof (setup_logging_raised le (logfile a) (logdetails a * 10) lg w) as Hraise.
  destruct (setup_logging le (logfile a) (logdetails a * 10) lg w) as [[[r|e] lg1] w1];
    cbn [fst snd] in *.
  - left. by destruct (icemapr env a w1).
  - right. split; [by eexists|]. by apply (Hraise e).
Qed.








(** X5: the output path is written by the export alone: after a call that
    returns [True] it holds the exported raster; after any other call it
    holds what it held before, unless the log file was opened there (the
    output path being neither of the two scratch paths). *)
Theorem call_output_written_on_success_only env le a lg w :
  outfile a <> tmpfile_name env ->
  outfile a <> mkstemp env ".txt" ->
  let out := icemapr_call env le a lg w in
  (fst (fst out) = Returned (PyBool true) ->
   fs (snd out) !! outfile a = Some GeoTiff) /\
  (logfile a <> Some (outfile a) ->
   fst (fst out) <> Returned (PyBool true) ->
   fs (snd out) !! outfile a = fs w !! outfile a).
Proof.
  intros Ht Hm out.
  destruct (output_written_on_success_only env a (after_setup le a lg w) Ht Hm)
    as [Hyes Hno].
  destruct (setup_logging_world le (logfile a) (logdetails a * 10) lg w)
    as (_ & _ & Hf & _). fold (after_setup le a lg w) in Hf.
  destruct (icemapr_call_cases env le a lg w) as [[Hr Hw]|[[e Hr] Hw]];
    fold out in Hr, Hw; rewrite Hr, Hw.
  - split.
    + intros [= H]. by apply Hyes.
    + intros Hl H. rewrite Hno; [by apply Hf|]. intros E. apply H. by rewrite E.
  - split; [discriminate|done].
Qed.

Lemma call_output_written_on_success_only_witness :
  let a := with_logfile (run_args 1 "thaw") "run.log" in
  fs (snd (icemapr_call env_ok logs_open a fresh_logger disk)) !! "icemap.tif" =
    Some GeoTiff /\
  fs (snd (icemapr_call env_tex_raises logs_open a fresh_logger disk)) !! "icemap.tif" =
    fs disk !! "icemap.tif".
Proof.
  split.
  - destruct (call_output_written_on_success_only env_ok logs_open
                (with_logfile (run_args 1 "thaw") "run.log") fresh_logger disk) as [H _];
      [by vm_compute | by vm_compute |].
    apply H. by vm_compute.
  - destruct (call_output_written_on_success_only env_tex_raises logs_open
                (with_logfile (run_args 1 "thaw") "run.log") fresh_logger disk) as [_ H];
      [by vm_compute | by vm_compute |].
    apply H; by vm_compute.
Defined.







(** ** [main] with its logger set-up *)

(** A call of [main] whose arguments parse is the set-up followed by the
    rest of [main]; when the set-up raises, the error is logged and the exit
    code is 1. *)
Lemma main_call_cases env le n lg w :
  parse_ok n = true ->
  let w1 := snd (setup_logging le (Some (ns_logfile n)) (ns_logdetails n * 10) lg w) in
  (fst (fst (main_call env le n lg w)) = fst (main env n w1) /\
   snd (main_call env le n lg w) = snd (main env n w1)) \/
  (fst (fst (main_call env le n lg w)) = 1 /\
   snd (main_call env le n lg w) = logger ERROR (open_message le (ns_logfile n)) w /\
   open_ok le (ns_logfile n) = false).
Proof.
  intros Hp w1. subst w1. unfold main_call. rewrite Hp. cbn [negb].
  destruct (setup_logging le (Some (ns_logfile n)) (ns_logdetails n * 10) lg w)
    as [[[r|e] lg1] w1] eqn:Hs; cbn [snd].
  - left. unfold icemapr_call. cbn [logfile logdetails].
    destruct (setup_logging_no_file le (2 * 10) lg1 w1) as [Hw [r' Hr']].
    destruct (setup_logging le None (2 * 10) lg1 w1) as [[o lg2] w2].
    cbn [fst snd] in Hw, Hr'. subst o w2.
    unfold main. rewrite Hp. cbn [negb].
    match goal with |- context [icemapr env ?a w1] => destruct (icemapr env a w1) as [x w2] end.
    by destruct (negb (truthy x)).
  - right. unfold setup_logging in Hs.
    destruct (length (handlers lg) <=? 1)%nat; [|discriminate].
    destruct (open_ok le (ns_logfile n)); [discriminate|].
    injection Hs as <- _ <-. by cbn [fst snd].
Qed.

(** X23: without [--pctfile], a file already at the output path makes a
    call of [main] exit with 1: PCI is not called, and the file is left as
    it is, the log file being another path ([mkstemp] returning a name not
    in use, and not that of the log file). *)
Theorem main_call_refuses_existing_output env le n lg w :
  parse_ok n = true ->
  ns_pctfile n = None ->
  is_Some (fs w !! ns_outfile n) ->
  fs w !! mkstemp env ".txt" = None ->
  ns_logfile n <> mkstemp env ".txt" ->
  ns_logfile n <> ns_outfile n ->
  let out := main_call env le n lg w in
  fst (fst out) = 1 /\
  calls (snd out) = calls w /\
  fs (snd out) !! ns_outfile n = fs w !! ns_outfile n.
Proof.
  intros Hp Hn Hout Hfresh Hlm Hlo out.
  destruct (setup_logging_world le (Some (ns_logfile n)) (ns_logdetails n * 10) lg w)
    as (Hc & _ & Hf & Hk).
  destruct (main_call_cases env le n lg w Hp) as [[Hr Hw]|(Hr & Hw & _)];
    fold out in Hr, Hw; rewrite Hr, Hw; [|done].
  destruct (cli_refuses_existing_output env n
              (snd (setup_logging le (Some (ns_logfile n)) (ns_logdetails n * 10) lg w)))
    as (H1 & H2 & H3); try done.
  - by apply Hk.
  - rewrite Hf; [done|congruence].
  - rewrite H1, H2, H3, Hc. repeat split. apply Hf. congruence.
Qed.

Lemma main_call_refuses_existing_output_witness :
  let out := main_call env_ok logs_open cli_thaw fresh_logger disk_with_output in
  fst (fst out) = 1 /\
  calls (snd out) = calls disk_with_output /\
  fs (snd out) !! ns_outfile cli_thaw = fs disk_with_output !! ns_outfile cli_thaw.
Proof.
  apply (main_call_refuses_existing_output env_ok logs_open cli_thaw fresh_logger
           disk_with_output); try (by vm_compute).
  exists (UserData 3). by vm_compute.
Defined.




